(** * The "Oral Health Tips" category page  (src/app/oral-health-tips/page.tsx)

    A shallow embedding of the page module: the data loader
    [getOralHealthTipsData], the metadata builder [generateMetadata] and the
    page component [OralHealthTipsPage], together with the part of the Prisma
    client the three queries of the loader go through. *)

From Stdlib Require Import String ZArith List Bool Lia Sorted Permutation.
Import ListNotations.
Local Open Scope string_scope.

Set Implicit Arguments.

(** ** Promises

    An [async] function either resolves to a value or rejects.  The only
    rejections the module can see are a failed query and the exception
    [notFound()] throws. *)

Inductive Error : Type :=
| NEXT_NOT_FOUND
| PrismaClientError (message : string).

Inductive Promise (A : Type) : Type :=
| Resolved (value : A)
| Rejected (reason : Error).

Arguments Resolved {A} value.
Arguments Rejected {A} reason.

Definition await {A B : Type} (p : Promise A) (k : A -> Promise B) : Promise B :=
  match p with
  | Resolved a => k a
  | Rejected e => Rejected e
  end.

Notation "x <- p ;; k" := (await p (fun x => k))
  (at level 61, p at next level, right associativity).

(** [Promise.all([p1, p2, p3])]: resolves only when the three promises have
    resolved, and rejects as soon as one of them rejects. *)
Definition Promise_all3 {A B C : Type}
  (p1 : Promise A) (p2 : Promise B) (p3 : Promise C) : Promise (A * B * C) :=
  match p1, p2, p3 with
  | Resolved a, Resolved b, Resolved c => Resolved (a, b, c)
  | Rejected e, _, _ => Rejected e
  | _, Rejected e, _ => Rejected e
  | _, _, Rejected e => Rejected e
  end.

Fixpoint Promise_mapM {A B : Type} (f : A -> Promise B) (l : list A)
  : Promise (list B) :=
  match l with
  | [] => Resolved []
  | x :: tl =>
      y <- f x ;;
      ys <- Promise_mapM f tl ;;
      Resolved (y :: ys)
  end.

(** ** The data model *)

(** Modelled from the spec: the Prisma schema (prisma/schema.prisma) is not
    part of the sources.  The tables carry the fields the page reads:
    a category has id, slug, name, description and the two SEO overrides;
    an author has id, name and slug; an article has id, slug, title, excerpt,
    featuredImage, status, publishedAt (optional) and createdAt, and belongs
    to one category and one author.  Timestamps are milliseconds since the
    epoch; the status enum is the string Prisma hands to JavaScript. *)
Module CategoryRow.
Record t : Type := {
  id : string;
  name : string;
  slug : string;
  description : option string;
  seoTitle : option string;
  seoDescription : option string
}.
End CategoryRow.

Module AuthorRow.
Record t : Type := {
  id : string;
  name : string;
  slug : string
}.
End AuthorRow.

Module ArticleRow.
Record t : Type := {
  id : string;
  slug : string;
  title : string;
  excerpt : option string;
  featuredImage : option string;
  status : string;
  publishedAt : option Z;
  createdAt : Z;
  categoryId : string;
  authorId : string
}.
End ArticleRow.

(** The stored data, with the two choices the database makes when it sorts:
    whether NULL is the largest value (PostgreSQL) or the smallest (MySQL,
    SQLite), and the collation of text columns. *)
Record Store : Type := {
  categories : list CategoryRow.t;
  articles : list ArticleRow.t;
  authors : list AuthorRow.t;
  nullsHigh : bool;
  collate : string -> string -> comparison
}.

(** ** Query payloads *)

(** [select: { name: true, slug: true }] of a related row. *)
Module NameSlug.
Record t : Type := {
  name : string;
  slug : string
}.
End NameSlug.

(** An article with [include: { author, category }]. *)
Module Article.
Record t : Type := {
  id : string;
  slug : string;
  title : string;
  excerpt : option string;
  featuredImage : option string;
  status : string;
  publishedAt : option Z;
  createdAt : Z;
  categoryId : string;
  authorId : string;
  author : NameSlug.t;
  category : NameSlug.t
}.
End Article.

(** A category with [select: { name, slug, articles: { select: { id } } }];
    every element of [articles] is the id of one selected article. *)
Module CategoryWithArticles.
Record t : Type := {
  name : string;
  slug : string;
  articles : list string
}.
End CategoryWithArticles.

(** ** Query arguments *)

Inductive SortOrder : Type := asc | desc.

(** [slug: 'x'] is [equals "x"], [slug: { not: 'x' }] is [not_ "x"]. *)
Inductive StringFilter : Type :=
| equals (s : string)
| not_ (s : string).

(** [where] objects; a field left out is [None] and constrains nothing. *)
Inductive ArticleWhereInput : Type :=
| ArticleWhere (status : option string) (category : option CategoryWhereInput)
with CategoryWhereInput : Type :=
| CategoryWhere (slug : option StringFilter)
                 (articles_some : option ArticleWhereInput).

Inductive ArticleOrderBy : Type :=
| by_publishedAt (o : SortOrder)
| by_createdAt (o : SortOrder).

Inductive CategoryOrderBy : Type :=
| by_name (o : SortOrder).

Module ArticleFindMany.
Record args : Type := {
  where_ : ArticleWhereInput;
  orderBy : list ArticleOrderBy
}.
End ArticleFindMany.

Module CategoryFindMany.
Record args : Type := {
  where_ : CategoryWhereInput;
  select_articles_where : ArticleWhereInput;
  orderBy : list CategoryOrderBy
}.
End CategoryFindMany.

(** The three entry points of the client the loader calls.  The projections
    ([select] / [include]) are fixed by the result types. *)
Record PrismaClient : Type := {
  category_findUnique : string -> Promise (option CategoryRow.t);
  article_findMany : ArticleFindMany.args -> Promise (list Article.t);
  category_findMany :
    CategoryFindMany.args -> Promise (list CategoryWithArticles.t)
}.

(** ** Evaluating the queries on a store *)

Definition matchString (f : StringFilter) (s : string) : bool :=
  match f with
  | equals x => String.eqb s x
  | not_ x => negb (String.eqb s x)
  end.

Definition categoryOf (st : Store) (a : ArticleRow.t) : option CategoryRow.t :=
  find (fun c => String.eqb (CategoryRow.id c) (ArticleRow.categoryId a))
       (categories st).

Definition authorOf (st : Store) (a : ArticleRow.t) : option AuthorRow.t :=
  find (fun u => String.eqb (AuthorRow.id u) (ArticleRow.authorId a))
       (authors st).

Definition inCategory (c : CategoryRow.t) (a : ArticleRow.t) : bool :=
  String.eqb (ArticleRow.categoryId a) (CategoryRow.id c).

Fixpoint articleMatches (st : Store) (w : ArticleWhereInput) (a : ArticleRow.t)
  {struct w} : bool :=
  match w with
  | ArticleWhere status category =>
      match status with
      | None => true
      | Some s => String.eqb (ArticleRow.status a) s
      end
      &&
      match category with
      | None => true
      | Some cw =>
          match categoryOf st a with
          | Some c => categoryMatches st cw c
          | None => false
          end
      end
  end
with categoryMatches (st : Store) (w : CategoryWhereInput) (c : CategoryRow.t)
  {struct w} : bool :=
  match w with
  | CategoryWhere slug articles_some =>
      match slug with
      | None => true
      | Some f => matchString f (CategoryRow.slug c)
      end
      &&
      match articles_some with
      | None => true
      | Some aw =>
          existsb (fun a => inCategory c a && articleMatches st aw a)
                  (articles st)
      end
  end.

(** *** Ordering *)

Definition compareNullable {A : Type} (high : bool)
  (cmp : A -> A -> comparison) (x y : option A) : comparison :=
  match x, y with
  | None, None => Eq
  | None, Some _ => if high then Gt else Lt
  | Some _, None => if high then Lt else Gt
  | Some a, Some b => cmp a b
  end.

Definition directed (o : SortOrder) (c : comparison) : comparison :=
  match o with
  | asc => c
  | desc => CompOpp c
  end.

Definition articleKey (st : Store) (k : ArticleOrderBy)
  (a b : ArticleRow.t) : comparison :=
  match k with
  | by_publishedAt o =>
      directed o (compareNullable (nullsHigh st) Z.compare
                    (ArticleRow.publishedAt a) (ArticleRow.publishedAt b))
  | by_createdAt o =>
      directed o (Z.compare (ArticleRow.createdAt a) (ArticleRow.createdAt b))
  end.

Definition categoryKey (st : Store) (k : CategoryOrderBy)
  (a b : CategoryRow.t) : comparison :=
  match k with
  | by_name o => directed o (collate st (CategoryRow.name a) (CategoryRow.name b))
  end.

(** Several sort keys: the first that tells the rows apart decides. *)
Fixpoint lexCompare {R : Type} (keys : list (R -> R -> comparison))
  (a b : R) : comparison :=
  match keys with
  | [] => Eq
  | k :: ks =>
      match k a b with
      | Eq => lexCompare ks a b
      | c => c
      end
  end.

Definition notAfter {R : Type} (cmp : R -> R -> comparison) (a b : R) : bool :=
  match cmp a b with
  | Gt => false
  | _ => true
  end.

Fixpoint insertBy {R : Type} (cmp : R -> R -> comparison) (x : R) (l : list R)
  : list R :=
  match l with
  | [] => [x]
  | y :: tl => if notAfter cmp x y then x :: l else y :: insertBy cmp x tl
  end.

(** ORDER BY: a stable sort, rows that tie on every key keep table order. *)
Definition sortBy {R : Type} (cmp : R -> R -> comparison) (l : list R) : list R :=
  fold_right (insertBy cmp) [] l.

(** *** The store-backed client *)

Definition nameSlugOfCategory (c : CategoryRow.t) : NameSlug.t :=
  {| NameSlug.name := CategoryRow.name c; NameSlug.slug := CategoryRow.slug c |}.

Definition nameSlugOfAuthor (u : AuthorRow.t) : NameSlug.t :=
  {| NameSlug.name := AuthorRow.name u; NameSlug.slug := AuthorRow.slug u |}.

(** [include]: both relations are required in the payload (the page reads
    [article.author.name] and [article.category.name] unguarded).  A row
    whose author or category row is missing is outside that data model; the
    query is made to fail on it. *)
Definition includeRelations (st : Store) (a : ArticleRow.t) : Promise Article.t :=
  match authorOf st a, categoryOf st a with
  | Some u, Some c =>
      Resolved {| Article.id := ArticleRow.id a;
                  Article.slug := ArticleRow.slug a;
                  Article.title := ArticleRow.title a;
                  Article.excerpt := ArticleRow.excerpt a;
                  Article.featuredImage := ArticleRow.featuredImage a;
                  Article.status := ArticleRow.status a;
                  Article.publishedAt := ArticleRow.publishedAt a;
                  Article.createdAt := ArticleRow.createdAt a;
                  Article.categoryId := ArticleRow.categoryId a;
                  Article.authorId := ArticleRow.authorId a;
                  Article.author := nameSlugOfAuthor u;
                  Article.category := nameSlugOfCategory c |}
  | _, _ => Rejected (PrismaClientError "Inconsistent query result")
  end.

Definition selectedArticles (st : Store) (args : CategoryFindMany.args)
  (c : CategoryRow.t) : list ArticleRow.t :=
  filter (fun a => inCategory c a
                   && articleMatches st (CategoryFindMany.select_articles_where args) a)
         (articles st).

Definition selectCategory (st : Store) (args : CategoryFindMany.args)
  (c : CategoryRow.t) : CategoryWithArticles.t :=
  {| CategoryWithArticles.name := CategoryRow.name c;
     CategoryWithArticles.slug := CategoryRow.slug c;
     CategoryWithArticles.articles :=
       map ArticleRow.id (selectedArticles st args c) |}.

Definition articleRows (st : Store) (args : ArticleFindMany.args)
  : list ArticleRow.t :=
  sortBy (lexCompare (map (articleKey st) (ArticleFindMany.orderBy args)))
         (filter (articleMatches st (ArticleFindMany.where_ args)) (articles st)).

Definition categoryRows (st : Store) (args : CategoryFindMany.args)
  : list CategoryRow.t :=
  sortBy (lexCompare (map (categoryKey st) (CategoryFindMany.orderBy args)))
         (filter (categoryMatches st (CategoryFindMany.where_ args)) (categories st)).

Definition storeClient (st : Store) : PrismaClient :=
  {| category_findUnique := fun slug =>
       Resolved (find (fun c => String.eqb (CategoryRow.slug c) slug)
                      (categories st));
     article_findMany := fun args =>
       Promise_mapM (includeRelations st) (articleRows st args);
     category_findMany := fun args =>
       Resolved (map (selectCategory st args) (categoryRows st args)) |}.

(** ** The data loader *)

Definition CATEGORY_SLUG : string := "oral-health-tips".

Module SiblingCategory.
Record t : Type := {
  name : string;
  slug : string;
  count : nat
}.
End SiblingCategory.

Module PageData.
Record t : Type := {
  category : CategoryRow.t;
  articles : list Article.t;
  siblingCategories : list SiblingCategory.t
}.
End PageData.

Definition articlesQuery : ArticleFindMany.args :=
  {| ArticleFindMany.where_ :=
       ArticleWhere (Some "PUBLISHED")
                    (Some (CategoryWhere (Some (equals CATEGORY_SLUG)) None));
     ArticleFindMany.orderBy := [by_publishedAt desc; by_createdAt desc] |}.

Definition siblingCategoriesQuery : CategoryFindMany.args :=
  {| CategoryFindMany.where_ :=
       CategoryWhere (Some (not_ CATEGORY_SLUG))
                     (Some (ArticleWhere (Some "PUBLISHED") None));
     CategoryFindMany.select_articles_where :=
       ArticleWhere (Some "PUBLISHED") None;
     CategoryFindMany.orderBy := [by_name asc] |}.

Definition summarize (item : CategoryWithArticles.t) : SiblingCategory.t :=
  {| SiblingCategory.name := CategoryWithArticles.name item;
     SiblingCategory.slug := CategoryWithArticles.slug item;
     SiblingCategory.count := length (CategoryWithArticles.articles item) |}.

Definition getOralHealthTipsData (prisma : PrismaClient)
  : Promise (option PageData.t) :=
  r <- Promise_all3 (category_findUnique prisma CATEGORY_SLUG)
                    (article_findMany prisma articlesQuery)
                    (category_findMany prisma siblingCategoriesQuery) ;;
  let '(category, articles, siblingCategories) := r in
  match category with
  | None => Resolved None
  | Some category =>
      Resolved (Some {| PageData.category := category;
                        PageData.articles := articles;
                        PageData.siblingCategories :=
                          map summarize siblingCategories |})
  end.

(** ** The metadata builder *)

Module OpenGraph.
Record t : Type := {
  title : string;
  description : string
}.
End OpenGraph.

Module Metadata.
Record t : Type := {
  title : string;
  description : string;
  openGraph : option OpenGraph.t
}.
End Metadata.

(** [x ?? d]: the right operand is used only when the left one is null or
    undefined. *)
Definition nullish {A : Type} (x : option A) (d : A) : A :=
  match x with
  | Some v => v
  | None => d
  end.

Infix "??" := nullish (at level 45, right associativity).

Definition TITLE_SUFFIX : string := " | Pediatric Dentist Directory".

Definition FALLBACK_TITLE : string := "Oral Health Tips for Kids".

Definition FALLBACK_DESCRIPTION : string :=
  "Expert oral health tips to help families protect kidsâ€™ smiles with preventive care at home.".

Definition DEFAULT_DESCRIPTION : string :=
  "Practical pediatric oral health advice covering brushing routines, diet tips, and preventative care.".

Definition generateMetadata (prisma : PrismaClient) : Promise Metadata.t :=
  data <- getOralHealthTipsData prisma ;;
  match data with
  | None =>
      Resolved {| Metadata.title := FALLBACK_TITLE;
                  Metadata.description := FALLBACK_DESCRIPTION;
                  Metadata.openGraph := None |}
  | Some data =>
      let category := PageData.category data in
      Resolved
        {| Metadata.title :=
             CategoryRow.seoTitle category ?? (CategoryRow.name category ++ TITLE_SUFFIX);
           Metadata.description :=
             CategoryRow.seoDescription category ??
             CategoryRow.description category ??
             DEFAULT_DESCRIPTION;
           Metadata.openGraph :=
             Some {| OpenGraph.title :=
                       CategoryRow.seoTitle category ??
                       (CategoryRow.name category ++ TITLE_SUFFIX);
                     OpenGraph.description :=
                       CategoryRow.seoDescription category ??
                       CategoryRow.description category ??
                       DEFAULT_DESCRIPTION |} |}
  end.

(** ** The page component *)

(** The image slot of a card: the featured image, or the placeholder panel. *)
Inductive CardImage : Type :=
| Image (src alt : string)
| Placeholder (label : string).

Module Link.
Record t : Type := {
  href : string;
  text : string
}.
End Link.

Module ArticleCard.
Record t : Type := {
  key : string;
  image : CardImage;
  badge : string;
  titleLink : Link.t;
  excerpt : option string;
  authorName : string;
  publishedDate : option string;
  readLink : Link.t
}.
End ArticleCard.

Module EmptyState.
Record t : Type := {
  heading : string;
  text : string
}.
End EmptyState.

(** The props handed to [DirectorySidebar]. *)
Module SidebarProps.
Record t : Type := {
  categoryName : string;
  siblingCategories : list SiblingCategory.t;
  relatedArticles : list Article.t;
  categoryLinkBuilder : string -> string;
  activeCategorySlug : string
}.
End SidebarProps.

Module Page.
Record t : Type := {
  label : string;
  heading : string;
  subheading : string;
  emptyState : option EmptyState.t;
  cards : list ArticleCard.t;
  sidebar : SidebarProps.t
}.
End Page.

(** A string operand of [&&] or [? :] counts as present when it is neither
    null nor empty. *)
Definition truthy (x : option string) : option string :=
  match x with
  | Some s => if String.eqb s "" then None else Some s
  | None => None
  end.

(** [notFound()] throws and never returns. *)
Definition notFound {A : Type} : Promise A := Rejected NEXT_NOT_FOUND.

Definition HERO_FALLBACK : string :=
  "Actionable oral health guidance from pediatric dental specialists to keep smiles bright at every age.".

Definition READ_TIP_HREF : string := "/blog/{article.slug}/".

Section Renderer.

(** [formatDate] of @/lib/utils, which is not part of the sources. *)
Variable formatDate : Z -> string.

Definition renderCard (article : Article.t) : ArticleCard.t :=
  {| ArticleCard.key := Article.id article;
     ArticleCard.image :=
       match truthy (Article.featuredImage article) with
       | Some src => Image src (Article.title article)
       | None => Placeholder "Oral Health Tips"
       end;
     ArticleCard.badge := NameSlug.name (Article.category article);
     ArticleCard.titleLink :=
       {| Link.href := "/blog/" ++ Article.slug article ++ "/";
          Link.text := Article.title article |};
     ArticleCard.excerpt := truthy (Article.excerpt article);
     ArticleCard.authorName := NameSlug.name (Article.author article);
     ArticleCard.publishedDate :=
       option_map formatDate (Article.publishedAt article);
     ArticleCard.readLink :=
       {| Link.href := READ_TIP_HREF; Link.text := "Read tip" |} |}.

Definition renderPage (data : PageData.t) : Page.t :=
  let category := PageData.category data in
  let articles := PageData.articles data in
  let siblingCategories := PageData.siblingCategories data in
  {| Page.label := "Family Oral Care Guides";
     Page.heading := CategoryRow.name category;
     Page.subheading := CategoryRow.description category ?? HERO_FALLBACK;
     Page.emptyState :=
       if Nat.eqb (length articles) 0
       then Some {| EmptyState.heading := "More oral health tips coming soon";
                    EmptyState.text :=
                      "We're preparing new family-friendly guides. Check back shortly or browse other categories in the sidebar." |}
       else None;
     Page.cards := map renderCard articles;
     Page.sidebar :=
       {| SidebarProps.categoryName := CategoryRow.name category;
          SidebarProps.siblingCategories := siblingCategories;
          SidebarProps.relatedArticles := firstn 3 articles;
          SidebarProps.categoryLinkBuilder := fun slug => "/" ++ slug ++ "/";
          SidebarProps.activeCategorySlug := CATEGORY_SLUG |} |}.

Definition OralHealthTipsPage (prisma : PrismaClient) : Promise Page.t :=
  data <- getOralHealthTipsData prisma ;;
  match data with
  | None => notFound
  | Some data => Resolved (renderPage data)
  end.

End Renderer.

(** ** Notions the properties are stated with *)

(** The value the loader resolves to, from the results of its three queries. *)
Definition assemble (category : option CategoryRow.t) (articles : list Article.t)
  (siblings : list CategoryWithArticles.t) : option PageData.t :=
  option_map (fun c => {| PageData.category := c;
                          PageData.articles := articles;
                          PageData.siblingCategories := map summarize siblings |})
             category.

(** Reversing the arguments of a comparison built from the sort keys
    reverses its result. *)
Definition antisymmetric {A : Type} (cmp : A -> A -> comparison) : Prop :=
  forall a b, cmp b a = CompOpp (cmp a b).

(** [x >= y] on optional timestamps, in the order of the database: NULL is
    above every date when [high], below every date otherwise. *)
Definition publishedAt_ge (high : bool) (x y : option Z) : Prop :=
  match x, y with
  | Some a, Some b => (a >= b)%Z
  | None, None => True
  | None, Some _ => high = true
  | Some _, None => high = false
  end.

(** The published articles of a category, as stored. *)
Definition publishedIn (st : Store) (c : CategoryRow.t) : list ArticleRow.t :=
  filter (fun a => String.eqb (ArticleRow.categoryId a) (CategoryRow.id c)
                   && String.eqb (ArticleRow.status a) "PUBLISHED")
         (articles st).

(** ** A small store to run the module on *)

Definition demoCategory (id name slug : string) : CategoryRow.t :=
  {| CategoryRow.id := id; CategoryRow.name := name; CategoryRow.slug := slug;
     CategoryRow.description := None; CategoryRow.seoTitle := None;
     CategoryRow.seoDescription := None |}.

Definition demoRow (id status : string) (publishedAt : option Z) (createdAt : Z)
  (categoryId : string) : ArticleRow.t :=
  {| ArticleRow.id := id; ArticleRow.slug := "tip-" ++ id;
     ArticleRow.title := "Tip " ++ id; ArticleRow.excerpt := None;
     ArticleRow.featuredImage := None; ArticleRow.status := status;
     ArticleRow.publishedAt := publishedAt; ArticleRow.createdAt := createdAt;
     ArticleRow.categoryId := categoryId; ArticleRow.authorId := "u1" |}.

Definition demoTips : CategoryRow.t := demoCategory "c1" "Oral Health Tips" "oral-health-tips".

Definition demoStore : Store :=
  {| categories := [ demoCategory "c2" "Teething" "teething";
                     demoTips;
                     demoCategory "c3" "Braces" "braces";
                     demoCategory "c4" "Sealants" "sealants" ];
     articles := [ demoRow "1" "PUBLISHED" (Some 100%Z) 10 "c1";
                   demoRow "2" "PUBLISHED" None 20 "c1";
                   demoRow "3" "PUBLISHED" (Some 200%Z) 5 "c1";
                   demoRow "4" "DRAFT" (Some 300%Z) 40 "c1";
                   demoRow "5" "PUBLISHED" (Some 50%Z) 1 "c2";
                   demoRow "6" "PUBLISHED" (Some 60%Z) 2 "c3";
                   demoRow "7" "PUBLISHED" None 3 "c3";
                   demoRow "8" "PUBLISHED" (Some 100%Z) 30 "c1";
                   demoRow "9" "DRAFT" None 50 "c4" ];
     authors := [ {| AuthorRow.id := "u1"; AuthorRow.name := "Dr. Kim";
                     AuthorRow.slug := "dr-kim" |} ];
     nullsHigh := false;
     collate := String.compare |}.

Definition demoArticle (id : string) (publishedAt : option Z) (createdAt : Z)
  : Article.t :=
  {| Article.id := id; Article.slug := "tip-" ++ id;
     Article.title := "Tip " ++ id; Article.excerpt := None;
     Article.featuredImage := None; Article.status := "PUBLISHED";
     Article.publishedAt := publishedAt; Article.createdAt := createdAt;
     Article.categoryId := "c1"; Article.authorId := "u1";
     Article.author := {| NameSlug.name := "Dr. Kim"; NameSlug.slug := "dr-kim" |};
     Article.category := {| NameSlug.name := "Oral Health Tips";
                            NameSlug.slug := "oral-health-tips" |} |}.

Definition demoSibling (name slug : string) (count : nat) : SiblingCategory.t :=
  {| SiblingCategory.name := name; SiblingCategory.slug := slug;
     SiblingCategory.count := count |}.

Definition demoData : PageData.t :=
  {| PageData.category := demoTips;
     PageData.articles := [ demoArticle "3" (Some 200%Z) 5;
                            demoArticle "8" (Some 100%Z) 30;
                            demoArticle "1" (Some 100%Z) 10;
                            demoArticle "2" None 20 ];
     PageData.siblingCategories := [ demoSibling "Braces" "braces" 2;
                                     demoSibling "Teething" "teething" 1 ] |}.

(** The same store without the category of the page. *)
Definition demoStoreWithoutCategory : Store :=
  {| categories := [ demoCategory "c2" "Teething" "teething" ];
     articles := articles demoStore;
     authors := authors demoStore;
     nullsHigh := true;
     collate := String.compare |}.

Definition demoBlankCategory : CategoryRow.t :=
  {| CategoryRow.id := "c1"; CategoryRow.name := "Oral Health Tips";
     CategoryRow.slug := "oral-health-tips";
     CategoryRow.description := Some ""; CategoryRow.seoTitle := Some "";
     CategoryRow.seoDescription := Some "" |}.

Definition demoBlankStore : Store :=
  {| categories := [ demoBlankCategory ];
     articles := [];
     authors := [];
     nullsHigh := true;
     collate := String.compare |}.

Definition demoBlankData : PageData.t :=
  {| PageData.category := demoBlankCategory;
     PageData.articles := [];
     PageData.siblingCategories := [] |}.

Definition demoFormatDate (ms : Z) : string :=
  if (ms <? 150)%Z then "January 1, 2024" else "June 1, 2024".

(** A client that finds no category and whose article query fails. *)
Definition demoFailingClient : PrismaClient :=
  {| category_findUnique := fun _ => Resolved None;
     article_findMany := fun _ => Rejected (PrismaClientError "connection lost");
     category_findMany := fun _ => Resolved [] |}.

(** ** Notions for the further properties *)

(** The stored rows the page lists: the published ones whose category row
    has the slug of the page. *)
Definition listedRows (st : Store) : list ArticleRow.t :=
  filter (fun a =>
            String.eqb (ArticleRow.status a) "PUBLISHED"
            && match categoryOf st a with
               | Some c => String.eqb (CategoryRow.slug c) "oral-health-tips"
               | None => false
               end)
         (articles st).

(** [a] may stand before [b] in the list: it is not older, and on equal
    publication dates (or two missing ones) it was not created earlier. *)
Definition listedBefore (high : bool) (a b : Article.t) : Prop :=
  publishedAt_ge high (Article.publishedAt a) (Article.publishedAt b) /\
  (Article.publishedAt a = Article.publishedAt b ->
   (Article.createdAt a >= Article.createdAt b)%Z).

(** A client whose sibling query fails while the category exists. *)
Definition demoHalfFailingClient : PrismaClient :=
  {| category_findUnique := fun _ => Resolved (Some demoTips);
     article_findMany := fun _ => Resolved [];
     category_findMany := fun _ => Rejected (PrismaClientError "timeout") |}.

(** An article with an image and an excerpt, and one whose image and
    excerpt are empty strings. *)
Definition demoIllustrated : Article.t :=
  {| Article.id := "10"; Article.slug := "brushing";
     Article.title := "Brushing"; Article.excerpt := Some "Two minutes, twice a day.";
     Article.featuredImage := Some "/img/brushing.png"; Article.status := "PUBLISHED";
     Article.publishedAt := Some 100%Z; Article.createdAt := 90%Z;
     Article.categoryId := "c1"; Article.authorId := "u1";
     Article.author := {| NameSlug.name := "Dr. Kim"; NameSlug.slug := "dr-kim" |};
     Article.category := {| NameSlug.name := "Oral Health Tips";
                            NameSlug.slug := "oral-health-tips" |} |}.

Definition demoBare : Article.t :=
  {| Article.id := "11"; Article.slug := "{article.slug}";
     Article.title := "Flossing"; Article.excerpt := Some "";
     Article.featuredImage := Some ""; Article.status := "PUBLISHED";
     Article.publishedAt := None; Article.createdAt := 95%Z;
     Article.categoryId := "c1"; Article.authorId := "u1";
     Article.author := {| NameSlug.name := "Dr. Kim"; NameSlug.slug := "dr-kim" |};
     Article.category := {| NameSlug.name := "Oral Health Tips";
                            NameSlug.slug := "oral-health-tips" |} |}.

(** A client that finds the category and nothing else. *)
Definition demoListlessClient : PrismaClient :=
  {| category_findUnique := fun _ => Resolved (Some demoTips);
     article_findMany := fun _ => Resolved [];
     category_findMany := fun _ => Resolved [] |}.

(** The demo store on a database that places NULL above all dates. *)
Definition demoStoreNullsHigh : Store :=
  {| categories := categories demoStore;
     articles := articles demoStore;
     authors := authors demoStore;
     nullsHigh := true;
     collate := String.compare |}.

(** * Properties *)

(** ** Promises *)

Lemma Promise_all3_resolved (A B C : Type)
  (p1 : Promise A) (p2 : Promise B) (p3 : Promise C) (r : A * B * C) :
  Promise_all3 p1 p2 p3 = Resolved r <->
  p1 = Resolved (fst (fst r)) /\ p2 = Resolved (snd (fst r)) /\ p3 = Resolved (snd r).
Proof.
  destruct r as [[a b] c]; simpl.
  destruct p1, p2, p3; simpl; split.
  all: try (intros H; inversion H; subst; auto; fail).
  all: try (intros (H1 & H2 & H3); congruence).
Qed.

Lemma Promise_mapM_Forall2 (A B : Type) (f : A -> Promise B) (l : list A) :
  forall l', Promise_mapM f l = Resolved l' ->
             Forall2 (fun x y => f x = Resolved y) l l'.
Proof.
  induction l as [|x tl IH]; simpl; intros l' H.
  - inversion H; constructor.
  - destruct (f x) as [y|e] eqn:Hx; simpl in H; [|discriminate].
    destruct (Promise_mapM f tl) as [ys|e] eqn:Htl; simpl in H; [|discriminate].
    inversion H; subst. constructor; auto.
Qed.

Lemma Forall2_nth_error_r (A B : Type) (R : A -> B -> Prop) (l : list A) (l' : list B) :
  Forall2 R l l' ->
  forall i y, nth_error l' i = Some y ->
              exists x, nth_error l i = Some x /\ R x y.
Proof.
  induction 1 as [|x y0 tl tl' Hxy _ IH]; intros i y Hi.
  - destruct i; discriminate.
  - destruct i as [|i]; simpl in *.
    + inversion Hi; subst. eauto.
    + eauto.
Qed.

Lemma Forall2_In_r (A B : Type) (R : A -> B -> Prop) (l : list A) (l' : list B) :
  Forall2 R l l' ->
  forall y, In y l' -> exists x, In x l /\ R x y.
Proof.
  induction 1 as [|x y0 tl tl' Hxy _ IH]; intros y Hy; simpl in *.
  - contradiction.
  - destruct Hy as [->|Hy]; [eauto|].
    destruct (IH _ Hy) as (x' & Hin & HR); eauto.
Qed.

(** ** Sorting *)

Section Sorting.

Variable R : Type.
Variable cmp : R -> R -> comparison.

Lemma insertBy_In (x y : R) (l : list R) :
  In y (insertBy cmp x l) <-> y = x \/ In y l.
Proof.
  induction l as [|z tl IH]; simpl.
  - intuition.
  - destruct (notAfter cmp x z); simpl; rewrite ?IH; intuition.
Qed.

Lemma sortBy_In (y : R) (l : list R) : In y (sortBy cmp l) <-> In y l.
Proof.
  unfold sortBy. induction l as [|x tl IH]; simpl.
  - tauto.
  - rewrite insertBy_In, IH. intuition.
Qed.

Lemma insertBy_Permutation (x : R) (l : list R) :
  Permutation (x :: l) (insertBy cmp x l).
Proof.
  induction l as [|z tl IH]; simpl.
  - apply Permutation_refl.
  - destruct (notAfter cmp x z).
    + apply Permutation_refl.
    + eapply Permutation_trans; [apply perm_swap|].
      apply perm_skip, IH.
Qed.

Lemma sortBy_Permutation (l : list R) : Permutation l (sortBy cmp l).
Proof.
  unfold sortBy. induction l as [|x tl IH]; simpl.
  - constructor.
  - eapply Permutation_trans; [apply perm_skip, IH|].
    apply insertBy_Permutation.
Qed.

(** Two rows can always be put in order. *)
Hypothesis cmp_total : forall a b, cmp a b = Gt -> cmp b a <> Gt.

Let inOrder (a b : R) : Prop := cmp a b <> Gt.

Lemma notAfter_false (a b : R) : notAfter cmp a b = false -> inOrder b a.
Proof.
  unfold notAfter, inOrder. destruct (cmp a b) eqn:E; try discriminate.
  intros _. now apply cmp_total.
Qed.

Lemma notAfter_true (a b : R) : notAfter cmp a b = true -> inOrder a b.
Proof.
  unfold notAfter, inOrder. destruct (cmp a b); congruence.
Qed.

Lemma insertBy_HdRel (x a : R) (l : list R) :
  inOrder a x -> HdRel inOrder a l -> HdRel inOrder a (insertBy cmp x l).
Proof.
  intros Hax Hl. destruct l as [|z tl]; simpl.
  - now constructor.
  - destruct (notAfter cmp x z); constructor; auto.
    now inversion Hl.
Qed.

Lemma insertBy_Sorted (x : R) (l : list R) :
  Sorted inOrder l -> Sorted inOrder (insertBy cmp x l).
Proof.
  induction 1 as [|z tl Htl IH Hhd]; simpl.
  - repeat constructor.
  - destruct (notAfter cmp x z) eqn:E.
    + constructor; [now constructor|].
      constructor. now apply notAfter_true.
    + constructor; [exact IH|].
      apply insertBy_HdRel; auto. now apply notAfter_false.
Qed.

Lemma sortBy_Sorted (l : list R) : Sorted (fun a b => cmp a b <> Gt) (sortBy cmp l).
Proof.
  unfold sortBy. induction l as [|x tl IH]; simpl.
  - constructor.
  - now apply insertBy_Sorted.
Qed.

End Sorting.

Lemma Sorted_adjacent (A : Type) (P : A -> A -> Prop) (l : list A) :
  Sorted P l ->
  forall i a b, nth_error l i = Some a -> nth_error l (S i) = Some b -> P a b.
Proof.
  induction 1 as [|x tl Htl IH Hhd]; intros i a b Ha Hb.
  - destruct i; discriminate.
  - destruct i as [|i]; simpl in *.
    + inversion Ha; subst. destruct tl as [|y tl']; [discriminate|].
      simpl in Hb. inversion Hb; subst. now inversion Hhd.
    + eauto.
Qed.

Lemma compareNullable_antisym (A : Type) (high : bool) (cmp : A -> A -> comparison) :
  antisymmetric cmp -> antisymmetric (compareNullable high cmp).
Proof.
  intros H [a|] [b|]; simpl; auto; destruct high; reflexivity.
Qed.

Lemma directed_CompOpp (o : SortOrder) (c : comparison) :
  directed o (CompOpp c) = CompOpp (directed o c).
Proof. destruct o; reflexivity. Qed.

Lemma articleKey_antisym (st : Store) (k : ArticleOrderBy) :
  antisymmetric (articleKey st k).
Proof.
  intros a b. destruct k as [o|o]; simpl; rewrite <- directed_CompOpp; f_equal.
  - apply compareNullable_antisym. intros x y. apply Z.compare_antisym.
  - apply Z.compare_antisym.
Qed.

Lemma lexCompare_antisym (A : Type) (keys : list (A -> A -> comparison)) :
  Forall antisymmetric keys -> antisymmetric (lexCompare keys).
Proof.
  induction 1 as [|k ks Hk _ IH]; intros a b; simpl.
  - reflexivity.
  - rewrite (Hk a b). destruct (k a b); simpl; auto.
Qed.

Lemma antisymmetric_total (A : Type) (cmp : A -> A -> comparison) :
  antisymmetric cmp -> forall a b, cmp a b = Gt -> cmp b a <> Gt.
Proof.
  intros H a b E. rewrite (H a b), E. discriminate.
Qed.

(** ** The loader *)

Lemma loader_resolved (prisma : PrismaClient) (r : option PageData.t) :
  getOralHealthTipsData prisma = Resolved r <->
  exists category articles siblings,
    category_findUnique prisma CATEGORY_SLUG = Resolved category /\
    article_findMany prisma articlesQuery = Resolved articles /\
    category_findMany prisma siblingCategoriesQuery = Resolved siblings /\
    r = assemble category articles siblings.
Proof.
  unfold getOralHealthTipsData.
  destruct (category_findUnique prisma CATEGORY_SLUG) as [c|e1];
    destruct (article_findMany prisma articlesQuery) as [arts|e2];
    destruct (category_findMany prisma siblingCategoriesQuery) as [sibs|e3];
    simpl; split.
  all: try (intros H; discriminate H).
  all: try (intros (c' & a' & s' & H1 & H2 & H3 & _); discriminate).
  - intros H. exists c, arts, sibs. repeat split.
    destruct c; simpl in *; congruence.
  - intros (c' & a' & s' & H1 & H2 & H3 & ->).
    inversion H1; inversion H2; inversion H3; subst.
    destruct c'; reflexivity.
Qed.

Lemma loader_rejected (prisma : PrismaClient) :
  (exists e, category_findUnique prisma CATEGORY_SLUG = Rejected e) \/
  (exists e, article_findMany prisma articlesQuery = Rejected e) \/
  (exists e, category_findMany prisma siblingCategoriesQuery = Rejected e) ->
  exists e, getOralHealthTipsData prisma = Rejected e.
Proof.
  unfold getOralHealthTipsData.
  destruct (category_findUnique prisma CATEGORY_SLUG) as [c|e1];
    destruct (article_findMany prisma articlesQuery) as [arts|e2];
    destruct (category_findMany prisma siblingCategoriesQuery) as [sibs|e3];
    simpl; eauto.
  intros [(e & H)|[(e & H)|(e & H)]]; discriminate.
Qed.

(** What the article query keeps: published rows whose category row has the
    slug of the page. *)
Lemma articlesQuery_matches (st : Store) (a : ArticleRow.t) :
  articleMatches st (ArticleFindMany.where_ articlesQuery) a = true <->
  ArticleRow.status a = "PUBLISHED" /\
  exists c, categoryOf st a = Some c /\ CategoryRow.slug c = CATEGORY_SLUG.
Proof.
  simpl. rewrite andb_true_iff, String.eqb_eq.
  destruct (categoryOf st a) as [c|].
  - rewrite andb_true_r, String.eqb_eq. split.
    + intros [H1 H2]. eauto.
    + intros [H1 (c' & Hc & H2)]. inversion Hc; subst. auto.
  - split.
    + intros [_ H]; discriminate.
    + intros [_ (c' & Hc & _)]; discriminate.
Qed.

Lemma categoryOf_In (st : Store) (a : ArticleRow.t) (c : CategoryRow.t) :
  categoryOf st a = Some c -> In c (categories st).
Proof.
  unfold categoryOf. intros H. now apply find_some in H.
Qed.

Lemma filter_none (A : Type) (f : A -> bool) (l : list A) :
  (forall x, In x l -> f x = false) -> filter f l = [].
Proof.
  induction l as [|x tl IH]; simpl; intros H; [reflexivity|].
  rewrite (H x (or_introl eq_refl)). auto.
Qed.

Lemma articleRows_without_category (st : Store) :
  find (fun c => String.eqb (CategoryRow.slug c) CATEGORY_SLUG) (categories st) = None ->
  articleRows st articlesQuery = [].
Proof.
  intros Hnone. unfold articleRows.
  rewrite filter_none; [reflexivity|].
  intros a _. destruct (articleMatches st _ a) eqn:E; [|reflexivity].
  apply articlesQuery_matches in E. destruct E as [_ (c & Hc & Hslug)].
  apply categoryOf_In in Hc.
  pose proof (find_none _ _ Hnone c Hc) as Hf. simpl in Hf.
  rewrite Hslug, String.eqb_refl in Hf. discriminate.
Qed.

(** Every article the store-backed client returns comes from a row the
    query kept, and the rows come out in the order of the sort. *)
Lemma store_articles (st : Store) (data : PageData.t) :
  getOralHealthTipsData (storeClient st) = Resolved (Some data) ->
  Forall2 (fun row a => includeRelations st row = Resolved a)
          (articleRows st articlesQuery) (PageData.articles data).
Proof.
  intros H. apply loader_resolved in H.
  destruct H as (c & arts & sibs & _ & Harts & _ & Hdata).
  destruct c as [c|]; [|discriminate]. simpl in Hdata.
  inversion Hdata; subst; simpl.
  now apply Promise_mapM_Forall2.
Qed.

Lemma store_siblings (st : Store) (data : PageData.t) :
  getOralHealthTipsData (storeClient st) = Resolved (Some data) ->
  PageData.siblingCategories data =
  map (fun c => summarize (selectCategory st siblingCategoriesQuery c))
      (categoryRows st siblingCategoriesQuery).
Proof.
  intros H. apply loader_resolved in H.
  destruct H as (c & arts & sibs & _ & _ & Hsibs & Hdata).
  destruct c as [c|]; [|discriminate]. simpl in Hdata.
  inversion Hdata; subst; simpl.
  simpl in Hsibs. inversion Hsibs; subst.
  now rewrite map_map.
Qed.

Lemma includeRelations_fields (st : Store) (row : ArticleRow.t) (a : Article.t) :
  includeRelations st row = Resolved a ->
  Article.status a = ArticleRow.status row /\
  Article.publishedAt a = ArticleRow.publishedAt row /\
  Article.createdAt a = ArticleRow.createdAt row /\
  exists c, categoryOf st row = Some c /\
            Article.category a = nameSlugOfCategory c.
Proof.
  unfold includeRelations.
  destruct (authorOf st row) as [u|]; [|discriminate].
  destruct (categoryOf st row) as [c|]; [|discriminate].
  intros H; inversion H; subst; simpl. eauto 6.
Qed.

Example demo_loader :
  getOralHealthTipsData (storeClient demoStore) = Resolved (Some demoData).
Proof. reflexivity. Qed.

Example demo_loader_absent :
  getOralHealthTipsData (storeClient demoStoreWithoutCategory) = Resolved None.
Proof. reflexivity. Qed.

(** ** The not-found path *)

(** C1. The loader returns the not-found signal (resolves to null) exactly
    when the three queries have all resolved and the category query found no
    record: a rejected article or sibling query makes the loader reject even
    when the category is missing.  On the store-backed client this is exactly
    when no category row has the fixed slug.  In that case the page ends in
    the not-found outcome whatever the renderer's collaborators are, so no
    page tree is produced. *)
Theorem loader_not_found (prisma : PrismaClient) (st : Store)
  (formatDate : Z -> string) :
  (getOralHealthTipsData prisma = Resolved None <->
     category_findUnique prisma CATEGORY_SLUG = Resolved None /\
     (exists articles, article_findMany prisma articlesQuery = Resolved articles) /\
     (exists siblings,
         category_findMany prisma siblingCategoriesQuery = Resolved siblings)) /\
  (forall e, article_findMany prisma articlesQuery = Rejected e \/
             category_findMany prisma siblingCategoriesQuery = Rejected e ->
             getOralHealthTipsData prisma <> Resolved None) /\
  (getOralHealthTipsData (storeClient st) = Resolved None <->
     find (fun c => String.eqb (CategoryRow.slug c) CATEGORY_SLUG) (categories st)
     = None) /\
  (getOralHealthTipsData prisma = Resolved None ->
     OralHealthTipsPage formatDate prisma = Rejected NEXT_NOT_FOUND) /\
  (OralHealthTipsPage formatDate prisma = Rejected NEXT_NOT_FOUND ->
     getOralHealthTipsData prisma = Resolved None \/
     getOralHealthTipsData prisma = Rejected NEXT_NOT_FOUND).
Proof.
  assert (Hiff : getOralHealthTipsData prisma = Resolved None <->
     category_findUnique prisma CATEGORY_SLUG = Resolved None /\
     (exists articles, article_findMany prisma articlesQuery = Resolved articles) /\
     (exists siblings,
         category_findMany prisma siblingCategoriesQuery = Resolved siblings)).
  { rewrite loader_resolved. split.
    - intros (c & arts & sibs & H1 & H2 & H3 & Hr).
      destruct c; [discriminate|]. eauto.
    - intros (H1 & (arts & H2) & (sibs & H3)).
      exists None, arts, sibs. auto. }
  split; [exact Hiff|]. split; [|split; [|split]].
  - intros e He Hnone. apply Hiff in Hnone.
    destruct Hnone as (_ & (arts & H2) & (sibs & H3)).
    destruct He; congruence.
  - rewrite loader_resolved. split.
    + intros (c & arts & sibs & H1 & _ & _ & Hr).
      destruct c; [discriminate|]. simpl in H1. congruence.
    + intros Hnone. exists None, [], (map (selectCategory st siblingCategoriesQuery)
                                        (categoryRows st siblingCategoriesQuery)).
      simpl. rewrite Hnone. repeat split.
      now rewrite (articleRows_without_category st Hnone).
  - unfold OralHealthTipsPage. intros ->. reflexivity.
  - unfold OralHealthTipsPage.
    destruct (getOralHealthTipsData prisma) as [[d|]|e]; simpl; auto.
    + discriminate.
    + intros H; inversion H; auto.
Qed.

Lemma loader_not_found_witness :
  getOralHealthTipsData (storeClient demoStoreWithoutCategory) = Resolved None /\
  OralHealthTipsPage demoFormatDate (storeClient demoStoreWithoutCategory)
  = Rejected NEXT_NOT_FOUND /\
  getOralHealthTipsData demoFailingClient <> Resolved None.
Proof.
  destruct (loader_not_found (storeClient demoStoreWithoutCategory)
              demoStoreWithoutCategory demoFormatDate)
    as (_ & _ & Hstore & Hpage & _).
  destruct (loader_not_found demoFailingClient demoStore demoFormatDate)
    as (_ & Hbarrier & _).
  pose proof (proj2 Hstore eq_refl) as Habsent.
  split; [exact Habsent|]. split; [exact (Hpage Habsent)|].
  apply (Hbarrier (PrismaClientError "connection lost")).
  left. reflexivity.
Defined.

Example demo_no_short_circuit :
  category_findUnique demoFailingClient CATEGORY_SLUG = Resolved None /\
  getOralHealthTipsData demoFailingClient
  = Rejected (PrismaClientError "connection lost") /\
  OralHealthTipsPage demoFormatDate demoFailingClient
  = Rejected (PrismaClientError "connection lost").
Proof. repeat split. Qed.

(** ** The article list *)

Lemma articleRows_adjacent (st : Store) (i : nat) (ra rb : ArticleRow.t) :
  nth_error (articleRows st articlesQuery) i = Some ra ->
  nth_error (articleRows st articlesQuery) (S i) = Some rb ->
  publishedAt_ge (nullsHigh st) (ArticleRow.publishedAt ra) (ArticleRow.publishedAt rb) /\
  (ArticleRow.publishedAt ra = ArticleRow.publishedAt rb ->
   (ArticleRow.createdAt ra >= ArticleRow.createdAt rb)%Z).
Proof.
  intros Ha Hb. unfold articleRows in Ha, Hb.
  set (cmp := lexCompare (map (articleKey st) (ArticleFindMany.orderBy articlesQuery))) in *.
  assert (Htotal : forall a b, cmp a b = Gt -> cmp b a <> Gt).
  { apply antisymmetric_total, lexCompare_antisym.
    apply Forall_forall. intros k Hk. apply in_map_iff in Hk.
    destruct Hk as (o & <- & _). apply articleKey_antisym. }
  pose proof (Sorted_adjacent (sortBy_Sorted cmp Htotal _) _ Ha Hb) as Hord.
  unfold cmp in Hord. simpl in Hord. clear - Hord.
  destruct (ArticleRow.publishedAt ra) as [pa|], (ArticleRow.publishedAt rb) as [pb|];
    simpl in *.
  - destruct (Z.compare_spec pa pb) as [Heq|Hlt|Hgt]; simpl in Hord.
    + split; [lia|]. intros _.
      destruct (Z.compare_spec (ArticleRow.createdAt ra) (ArticleRow.createdAt rb));
        simpl in Hord; try lia. congruence.
    + congruence.
    + split; [lia|]. intros H; inversion H; lia.
  - destruct (nullsHigh st); simpl in Hord; [congruence|].
    split; [reflexivity|discriminate].
  - destruct (nullsHigh st); simpl in Hord; [|congruence].
    split; [reflexivity|discriminate].
  - split; [exact I|]. intros _.
    destruct (Z.compare_spec (ArticleRow.createdAt ra) (ArticleRow.createdAt rb));
      simpl in Hord; try lia. congruence.
Qed.

(** C3. The article list the loader returns is sorted by publishedAt
    descending with createdAt descending as the tie-break: for every adjacent
    pair (a, b), a.publishedAt >= b.publishedAt in the order of the database
    (which places NULL above or below all dates), and when the two
    publishedAt are equal or both null, a.createdAt >= b.createdAt. *)
Theorem articles_sorted (st : Store) (data : PageData.t) (i : nat) (a b : Article.t) :
  getOralHealthTipsData (storeClient st) = Resolved (Some data) ->
  nth_error (PageData.articles data) i = Some a ->
  nth_error (PageData.articles data) (S i) = Some b ->
  publishedAt_ge (nullsHigh st) (Article.publishedAt a) (Article.publishedAt b) /\
  (Article.publishedAt a = Article.publishedAt b ->
   (Article.createdAt a >= Article.createdAt b)%Z).
Proof.
  intros Hdata Ha Hb.
  pose proof (store_articles st Hdata) as Hrows.
  destruct (Forall2_nth_error_r Hrows _ Ha) as (ra & Hra & Hia).
  destruct (Forall2_nth_error_r Hrows _ Hb) as (rb & Hrb & Hib).
  apply includeRelations_fields in Hia. destruct Hia as (_ & -> & -> & _).
  apply includeRelations_fields in Hib. destruct Hib as (_ & -> & -> & _).
  exact (articleRows_adjacent st i Hra Hrb).
Qed.

Lemma articles_sorted_witness :
  getOralHealthTipsData (storeClient demoStore) = Resolved (Some demoData) /\
  publishedAt_ge false (Some 100%Z) (Some 100%Z) /\
  (Some 100%Z = Some 100%Z -> (30 >= 10)%Z).
Proof.
  split; [reflexivity|].
  apply (@articles_sorted demoStore demoData 1
           (demoArticle "8" (Some 100%Z) 30) (demoArticle "1" (Some 100%Z) 10));
    reflexivity.
Defined.

(** C4. Every article of the list the loader returns has status PUBLISHED
    and a category whose slug is the fixed slug 'oral-health-tips'. *)
Theorem articles_published_in_category (st : Store) (data : PageData.t) (a : Article.t) :
  getOralHealthTipsData (storeClient st) = Resolved (Some data) ->
  In a (PageData.articles data) ->
  Article.status a = "PUBLISHED" /\
  NameSlug.slug (Article.category a) = "oral-health-tips".
Proof.
  intros Hdata Ha.
  pose proof (store_articles st Hdata) as Hrows.
  destruct (Forall2_In_r Hrows _ Ha) as (row & Hrow & Hinc).
  unfold articleRows in Hrow. apply sortBy_In, filter_In in Hrow.
  destruct Hrow as [_ Hmatch].
  apply articlesQuery_matches in Hmatch.
  destruct Hmatch as [Hstatus (c & Hc & Hslug)].
  apply includeRelations_fields in Hinc.
  destruct Hinc as (-> & _ & _ & c' & Hc' & ->).
  split; [exact Hstatus|].
  rewrite Hc in Hc'. inversion Hc'; subst. exact Hslug.
Qed.

Lemma articles_published_in_category_witness :
  getOralHealthTipsData (storeClient demoStore) = Resolved (Some demoData) /\
  Article.status (demoArticle "2" None 20) = "PUBLISHED" /\
  NameSlug.slug (Article.category (demoArticle "2" None 20)) = "oral-health-tips".
Proof.
  split; [reflexivity|].
  apply (@articles_published_in_category demoStore demoData (demoArticle "2" None 20)).
  - reflexivity.
  - simpl. auto.
Defined.

Example demo_null_neighbour :
  nth_error (PageData.articles demoData) 2 = Some (demoArticle "1" (Some 100%Z) 10) /\
  nth_error (PageData.articles demoData) 3 = Some (demoArticle "2" None 20) /\
  (Article.createdAt (demoArticle "1" (Some 100%Z) 10)
   < Article.createdAt (demoArticle "2" None 20))%Z.
Proof. repeat split. Qed.

(** ** The sibling categories *)

Lemma selectedArticles_published (st : Store) (c : CategoryRow.t) :
  selectedArticles st siblingCategoriesQuery c = publishedIn st c.
Proof.
  unfold selectedArticles, publishedIn. apply filter_ext.
  intros a. simpl. unfold inCategory. now rewrite andb_true_r.
Qed.

Lemma siblingCategoriesQuery_matches (st : Store) (c : CategoryRow.t) :
  categoryMatches st (CategoryFindMany.where_ siblingCategoriesQuery) c = true ->
  CategoryRow.slug c <> CATEGORY_SLUG /\ publishedIn st c <> [].
Proof.
  simpl. rewrite andb_true_iff, negb_true_iff, String.eqb_neq, existsb_exists.
  intros [Hslug (a & Hin & Ha)]. split; [exact Hslug|].
  intros Hnil.
  assert (Hp : In a (publishedIn st c)).
  { unfold publishedIn. apply filter_In. split; [exact Hin|].
    unfold inCategory in Ha. now rewrite andb_true_r in Ha. }
  rewrite Hnil in Hp. contradiction.
Qed.

Lemma categoryRows_adjacent (st : Store) (i : nat) (c1 c2 : CategoryRow.t) :
  (forall x y, collate st x y = Gt -> collate st y x <> Gt) ->
  nth_error (categoryRows st siblingCategoriesQuery) i = Some c1 ->
  nth_error (categoryRows st siblingCategoriesQuery) (S i) = Some c2 ->
  collate st (CategoryRow.name c1) (CategoryRow.name c2) <> Gt.
Proof.
  intros Hcollate H1 H2. unfold categoryRows in H1, H2.
  set (cmp := lexCompare (map (categoryKey st) (CategoryFindMany.orderBy siblingCategoriesQuery))) in *.
  assert (Hcmp : forall a b, cmp a b = collate st (CategoryRow.name a) (CategoryRow.name b)).
  { intros a b. unfold cmp. simpl.
    now destruct (collate st (CategoryRow.name a) (CategoryRow.name b)). }
  assert (Htotal : forall a b, cmp a b = Gt -> cmp b a <> Gt).
  { intros a b. rewrite !Hcmp. apply Hcollate. }
  pose proof (Sorted_adjacent (sortBy_Sorted cmp Htotal _) _ H1 H2) as Hord.
  cbv beta in Hord. now rewrite Hcmp in Hord.
Qed.

(** C5. Every sibling-category summary the loader returns has a slug other
    than the fixed slug, belongs to a stored category whose name and slug it
    carries, has a count equal to the number of that category's PUBLISHED
    articles, which is at least 1; and the list of summaries is sorted by
    name ascending in the collation of the database (any collation that can
    order every two names). *)
Theorem siblings_summarized (st : Store) (data : PageData.t) :
  (forall x y, collate st x y = Gt -> collate st y x <> Gt) ->
  getOralHealthTipsData (storeClient st) = Resolved (Some data) ->
  (forall s, In s (PageData.siblingCategories data) ->
     SiblingCategory.slug s <> "oral-health-tips" /\
     1 <= SiblingCategory.count s /\
     exists c, In c (categories st) /\
               CategoryRow.name c = SiblingCategory.name s /\
               CategoryRow.slug c = SiblingCategory.slug s /\
               SiblingCategory.count s = length (publishedIn st c)) /\
  (forall i s1 s2,
     nth_error (PageData.siblingCategories data) i = Some s1 ->
     nth_error (PageData.siblingCategories data) (S i) = Some s2 ->
     collate st (SiblingCategory.name s1) (SiblingCategory.name s2) <> Gt).
Proof.
  intros Hcollate Hdata.
  rewrite (store_siblings st Hdata). split.
  - intros s Hs. apply in_map_iff in Hs. destruct Hs as (c & <- & Hc).
    unfold categoryRows in Hc. apply sortBy_In, filter_In in Hc.
    destruct Hc as [Hin Hmatch].
    apply siblingCategoriesQuery_matches in Hmatch.
    destruct Hmatch as [Hslug Hsome].
    assert (Hcount : SiblingCategory.count
                       (summarize (selectCategory st siblingCategoriesQuery c))
                     = length (publishedIn st c)).
    { simpl. now rewrite length_map, selectedArticles_published. }
    split; [exact Hslug|]. split.
    + rewrite Hcount. destruct (publishedIn st c); [congruence|simpl; lia].
    + exists c. auto.
  - intros i s1 s2 H1 H2. rewrite nth_error_map in H1, H2.
    destruct (nth_error (categoryRows st siblingCategoriesQuery) i) as [c1|] eqn:E1;
      [|discriminate].
    destruct (nth_error (categoryRows st siblingCategoriesQuery) (S i)) as [c2|] eqn:E2;
      [|discriminate].
    simpl in H1, H2. inversion H1; inversion H2; subst; simpl.
    exact (categoryRows_adjacent st i Hcollate E1 E2).
Qed.

Lemma string_compare_total (x y : string) :
  String.compare x y = Gt -> String.compare y x <> Gt.
Proof.
  intros H. rewrite String.compare_antisym, H. discriminate.
Qed.

Lemma siblings_summarized_witness :
  getOralHealthTipsData (storeClient demoStore) = Resolved (Some demoData) /\
  (forall s, In s (PageData.siblingCategories demoData) ->
     SiblingCategory.slug s <> "oral-health-tips" /\
     1 <= SiblingCategory.count s /\
     exists c, In c (categories demoStore) /\
               CategoryRow.name c = SiblingCategory.name s /\
               CategoryRow.slug c = SiblingCategory.slug s /\
               SiblingCategory.count s = length (publishedIn demoStore c)) /\
  (forall i s1 s2,
     nth_error (PageData.siblingCategories demoData) i = Some s1 ->
     nth_error (PageData.siblingCategories demoData) (S i) = Some s2 ->
     String.compare (SiblingCategory.name s1) (SiblingCategory.name s2) <> Gt).
Proof.
  split; [reflexivity|].
  apply (@siblings_summarized demoStore demoData).
  - exact string_compare_total.
  - reflexivity.
Defined.

(** ** Metadata *)

Lemma generateMetadata_found (prisma : PrismaClient) (data : PageData.t) :
  getOralHealthTipsData prisma = Resolved (Some data) ->
  exists m og,
    generateMetadata prisma = Resolved m /\
    Metadata.openGraph m = Some og /\
    Metadata.title m =
      CategoryRow.seoTitle (PageData.category data) ??
      (CategoryRow.name (PageData.category data) ++ TITLE_SUFFIX) /\
    Metadata.description m =
      CategoryRow.seoDescription (PageData.category data) ??
      CategoryRow.description (PageData.category data) ?? DEFAULT_DESCRIPTION /\
    OpenGraph.title og =
      CategoryRow.seoTitle (PageData.category data) ??
      (CategoryRow.name (PageData.category data) ++ TITLE_SUFFIX) /\
    OpenGraph.description og =
      CategoryRow.seoDescription (PageData.category data) ??
      CategoryRow.description (PageData.category data) ?? DEFAULT_DESCRIPTION.
Proof.
  intros H. unfold generateMetadata. rewrite H. simpl.
  eexists; eexists. split; [reflexivity|]. simpl. repeat split.
Qed.

(** C6. When the category is found, the metadata title is category.seoTitle
    when present, else "{category.name} | Pediatric Dentist Directory"; the
    description is category.seoDescription when present, else
    category.description when present, else the fixed fallback sentence. *)
Theorem metadata_of_category (prisma : PrismaClient) (data : PageData.t) :
  getOralHealthTipsData prisma = Resolved (Some data) ->
  exists m,
    generateMetadata prisma = Resolved m /\
    Metadata.title m =
      match CategoryRow.seoTitle (PageData.category data) with
      | Some seoTitle => seoTitle
      | None => CategoryRow.name (PageData.category data)
                  ++ " | Pediatric Dentist Directory"
      end /\
    Metadata.description m =
      match CategoryRow.seoDescription (PageData.category data),
            CategoryRow.description (PageData.category data) with
      | Some seoDescription, _ => seoDescription
      | None, Some description => description
      | None, None =>
          "Practical pediatric oral health advice covering brushing routines, diet tips, and preventative care."
      end.
Proof.
  intros H. destruct (generateMetadata_found prisma H)
    as (m & og & Hm & _ & Ht & Hd & _).
  exists m. rewrite Ht, Hd. split; [exact Hm|].
  destruct (CategoryRow.seoTitle (PageData.category data)),
           (CategoryRow.seoDescription (PageData.category data)),
           (CategoryRow.description (PageData.category data)); auto.
Qed.

Lemma metadata_of_category_witness :
  getOralHealthTipsData (storeClient demoStore) = Resolved (Some demoData) /\
  exists m,
    generateMetadata (storeClient demoStore) = Resolved m /\
    Metadata.title m = "Oral Health Tips | Pediatric Dentist Directory" /\
    Metadata.description m =
      "Practical pediatric oral health advice covering brushing routines, diet tips, and preventative care.".
Proof.
  split; [reflexivity|].
  apply (@metadata_of_category (storeClient demoStore) demoData).
  reflexivity.
Defined.

(** C7. For every loaded category the Open Graph title and description of
    the metadata are equal to its top-level title and description. *)
Theorem openGraph_mirrors (prisma : PrismaClient) (data : PageData.t) :
  getOralHealthTipsData prisma = Resolved (Some data) ->
  exists m og,
    generateMetadata prisma = Resolved m /\
    Metadata.openGraph m = Some og /\
    OpenGraph.title og = Metadata.title m /\
    OpenGraph.description og = Metadata.description m.
Proof.
  intros H. destruct (generateMetadata_found prisma H)
    as (m & og & Hm & Hog & Ht & Hd & Hot & Hod).
  exists m, og. rewrite Hot, Hod, Ht, Hd. auto.
Qed.

Lemma openGraph_mirrors_witness :
  getOralHealthTipsData (storeClient demoStore) = Resolved (Some demoData) /\
  exists m og,
    generateMetadata (storeClient demoStore) = Resolved m /\
    Metadata.openGraph m = Some og /\
    OpenGraph.title og = Metadata.title m /\
    OpenGraph.description og = Metadata.description m.
Proof.
  split; [reflexivity|].
  apply (@openGraph_mirrors (storeClient demoStore) demoData).
  reflexivity.
Defined.

(** C8. When the loader returns the not-found signal, the metadata builder
    returns the fixed pair: the title "Oral Health Tips for Kids" and the
    fixed fallback description, with no Open Graph part; the result is the
    same for every client, so nothing in it comes from a category. *)
Theorem metadata_fallback (prisma : PrismaClient) :
  getOralHealthTipsData prisma = Resolved None ->
  generateMetadata prisma =
  Resolved {| Metadata.title := "Oral Health Tips for Kids";
              Metadata.description := FALLBACK_DESCRIPTION;
              Metadata.openGraph := None |}.
Proof.
  intros H. unfold generateMetadata. now rewrite H.
Qed.

Lemma metadata_fallback_witness :
  getOralHealthTipsData (storeClient demoStoreWithoutCategory) = Resolved None /\
  generateMetadata (storeClient demoStoreWithoutCategory) =
  Resolved {| Metadata.title := "Oral Health Tips for Kids";
              Metadata.description := FALLBACK_DESCRIPTION;
              Metadata.openGraph := None |}.
Proof.
  split; [reflexivity|].
  apply (@metadata_fallback (storeClient demoStoreWithoutCategory)).
  reflexivity.
Defined.



(** ** The page *)

(** C2. For every article of the rendered list, the link of the "Read tip"
    affordance goes to the literal string "/blog/{article.slug}/", whatever
    the slug of the article, while the title link of the same card goes to
    "/blog/" followed by the slug of the article and "/". *)
Theorem read_tip_link_is_literal (formatDate : Z -> string) (data : PageData.t)
  (i : nat) (article : Article.t) :
  nth_error (PageData.articles data) i = Some article ->
  exists card,
    nth_error (Page.cards (renderPage formatDate data)) i = Some card /\
    Link.href (ArticleCard.readLink card) = "/blog/{article.slug}/" /\
    Link.text (ArticleCard.readLink card) = "Read tip" /\
    Link.href (ArticleCard.titleLink card) = "/blog/" ++ Article.slug article ++ "/".
Proof.
  intros H. exists (renderCard formatDate article). split.
  - simpl. now rewrite nth_error_map, H.
  - repeat split.
Qed.

Lemma read_tip_link_is_literal_witness :
  nth_error (PageData.articles demoData) 1 = Some (demoArticle "8" (Some 100%Z) 30) /\
  exists card,
    nth_error (Page.cards (renderPage demoFormatDate demoData)) 1 = Some card /\
    Link.href (ArticleCard.readLink card) = "/blog/{article.slug}/" /\
    Link.text (ArticleCard.readLink card) = "Read tip" /\
    Link.href (ArticleCard.titleLink card) = "/blog/tip-8/".
Proof.
  split; [reflexivity|].
  apply (@read_tip_link_is_literal demoFormatDate demoData 1
           (demoArticle "8" (Some 100%Z) 30)).
  reflexivity.
Defined.

Lemma page_resolved (prisma : PrismaClient) (formatDate : Z -> string) (page : Page.t) :
  OralHealthTipsPage formatDate prisma = Resolved page <->
  exists data, getOralHealthTipsData prisma = Resolved (Some data) /\
               page = renderPage formatDate data.
Proof.
  unfold OralHealthTipsPage, notFound.
  destruct (getOralHealthTipsData prisma) as [[d|]|e]; simpl; split.
  all: try (intros H; discriminate H).
  all: try (intros (data & H & _); discriminate H).
  - intros H. inversion H. eauto.
  - intros (data & H & ->). inversion H. reflexivity.
Qed.

(** C9. On the page the component returns, with the article list the loader
    got from its article query: the empty-state block is rendered exactly
    when that list is empty, and then no card is rendered; in every case
    there is one card per article, in the order of the loader, and the
    sidebar receives the first three articles as related articles, all of
    them when there are at most three. *)
Theorem listing_and_related (formatDate : Z -> string) (prisma : PrismaClient)
  (page : Page.t) :
  OralHealthTipsPage formatDate prisma = Resolved page ->
  exists data,
    getOralHealthTipsData prisma = Resolved (Some data) /\
    article_findMany prisma articlesQuery = Resolved (PageData.articles data) /\
    (Page.emptyState page <> None <-> PageData.articles data = []) /\
    (PageData.articles data = [] -> Page.cards page = []) /\
    Page.cards page = map (renderCard formatDate) (PageData.articles data) /\
    length (Page.cards page) = length (PageData.articles data) /\
    map ArticleCard.key (Page.cards page) = map Article.id (PageData.articles data) /\
    SidebarProps.relatedArticles (Page.sidebar page) = firstn 3 (PageData.articles data) /\
    length (SidebarProps.relatedArticles (Page.sidebar page))
      = Nat.min 3 (length (PageData.articles data)) /\
    (length (PageData.articles data) <= 3 ->
     SidebarProps.relatedArticles (Page.sidebar page) = PageData.articles data) /\
    (forall i, i < 3 ->
       nth_error (SidebarProps.relatedArticles (Page.sidebar page)) i
       = nth_error (PageData.articles data) i).
Proof.
  intros Hpage. apply page_resolved in Hpage.
  destruct Hpage as (data & Hdata & ->).
  exists data. split; [exact Hdata|]. split.
  { pose proof (proj1 (loader_resolved prisma (Some data)) Hdata) as Hq.
    destruct Hq as (c & arts & sibs & _ & Harts & _ & Hr).
    destruct c as [c|]; [|discriminate]. simpl in Hr.
    inversion Hr; subst; simpl. exact Harts. }
  unfold renderPage.
  cbn [Page.emptyState Page.cards Page.sidebar SidebarProps.relatedArticles].
  repeat split.
  - destruct (PageData.articles data); simpl; congruence.
  - intros ->. simpl. discriminate.
  - intros ->. reflexivity.
  - apply length_map.
  - rewrite map_map. reflexivity.
  - apply length_firstn.
  - intros Hle. now apply firstn_all2.
  - intros i Hi. rewrite nth_error_firstn.
    apply Nat.ltb_lt in Hi. now rewrite Hi.
Qed.

Lemma listing_and_related_witness :
  OralHealthTipsPage demoFormatDate (storeClient demoStore)
  = Resolved (renderPage demoFormatDate demoData) /\
  OralHealthTipsPage demoFormatDate (storeClient demoBlankStore)
  = Resolved (renderPage demoFormatDate demoBlankData) /\
  length (Page.cards (renderPage demoFormatDate demoData)) = 4 /\
  map ArticleCard.key (Page.cards (renderPage demoFormatDate demoData))
  = ["3"; "8"; "1"; "2"] /\
  map Article.id (SidebarProps.relatedArticles
                    (Page.sidebar (renderPage demoFormatDate demoData)))
  = ["3"; "8"; "1"] /\
  Page.emptyState (renderPage demoFormatDate demoBlankData) <> None /\
  Page.cards (renderPage demoFormatDate demoBlankData) = [].
Proof.
  split; [reflexivity|]. split; [reflexivity|].
  destruct (@listing_and_related demoFormatDate (storeClient demoStore)
              (renderPage demoFormatDate demoData) eq_refl)
    as (data & Hdata & _ & _ & _ & _ & Hlen & Hkeys & Hrelated & _).
  destruct (@listing_and_related demoFormatDate (storeClient demoBlankStore)
              (renderPage demoFormatDate demoBlankData) eq_refl)
    as (blank & Hblank & _ & Hempty & Hnone & _).
  change (Resolved (Some demoData) = Resolved (Some data)) in Hdata.
  change (Resolved (Some demoBlankData) = Resolved (Some blank)) in Hblank.
  inversion Hdata; inversion Hblank; subst data blank.
  split; [exact Hlen|]. split; [exact Hkeys|].
  split; [rewrite Hrelated; reflexivity|].
  split; [exact (proj2 Hempty eq_refl)|exact (Hnone eq_refl)].
Defined.

Example demo_page :
  exists page,
    OralHealthTipsPage demoFormatDate (storeClient demoStore) = Resolved page /\
    Page.emptyState page = None /\
    map ArticleCard.key (Page.cards page) = ["3"; "8"; "1"; "2"] /\
    map Article.id (SidebarProps.relatedArticles (Page.sidebar page)) = ["3"; "8"; "1"] /\
    map (fun c => Link.href (ArticleCard.readLink c)) (Page.cards page)
      = [READ_TIP_HREF; READ_TIP_HREF; READ_TIP_HREF; READ_TIP_HREF].
Proof. eexists. split; [reflexivity|]. repeat split. Qed.

Example demo_page_not_found :
  OralHealthTipsPage demoFormatDate (storeClient demoStoreWithoutCategory)
  = Rejected NEXT_NOT_FOUND.
Proof. reflexivity. Qed.

(** * Further properties *)

(** ** Faults *)

(** X1. The loader fails exactly when one of its three queries fails, and
    then with the error of one of them: it swallows no failure and raises
    none of its own. *)
Theorem loader_fault (prisma : PrismaClient) :
  (forall e, getOralHealthTipsData prisma = Rejected e ->
     category_findUnique prisma CATEGORY_SLUG = Rejected e \/
     article_findMany prisma articlesQuery = Rejected e \/
     category_findMany prisma siblingCategoriesQuery = Rejected e) /\
  ((exists e, getOralHealthTipsData prisma = Rejected e) <->
     (exists e, category_findUnique prisma CATEGORY_SLUG = Rejected e) \/
     (exists e, article_findMany prisma articlesQuery = Rejected e) \/
     (exists e, category_findMany prisma siblingCategoriesQuery = Rejected e)).
Proof.
  assert (Hone : forall e, getOralHealthTipsData prisma = Rejected e ->
     category_findUnique prisma CATEGORY_SLUG = Rejected e \/
     article_findMany prisma articlesQuery = Rejected e \/
     category_findMany prisma siblingCategoriesQuery = Rejected e).
  { intros e. unfold getOralHealthTipsData.
    destruct (category_findUnique prisma CATEGORY_SLUG) as [c|e1];
      destruct (article_findMany prisma articlesQuery) as [arts|e2];
      destruct (category_findMany prisma siblingCategoriesQuery) as [sibs|e3];
      simpl; intros H; try (inversion H; subst; auto; fail).
    destruct c; discriminate. }
  split; [exact Hone|]. split.
  - intros (e & He). destruct (Hone e He) as [H|[H|H]]; eauto.
  - apply loader_rejected.
Qed.

(** X2. The metadata builder and the page handle no failure: the metadata
    builder fails exactly when the loader does, with the same error; the page
    fails with the error of the loader, or with the not-found error when the
    loader returned null, and never otherwise. *)
Theorem callers_pass_faults_on (prisma : PrismaClient) (formatDate : Z -> string)
  (e : Error) :
  (generateMetadata prisma = Rejected e <->
     getOralHealthTipsData prisma = Rejected e) /\
  (OralHealthTipsPage formatDate prisma = Rejected e <->
     getOralHealthTipsData prisma = Rejected e \/
     (e = NEXT_NOT_FOUND /\ getOralHealthTipsData prisma = Resolved None)).
Proof.
  unfold generateMetadata, OralHealthTipsPage, notFound.
  destruct (getOralHealthTipsData prisma) as [[d|]|e']; simpl.
  - split; split; intros H; try discriminate H.
    destruct H as [H|[_ H]]; discriminate H.
  - split; split; intros H; try discriminate H.
    + inversion H; auto.
    + destruct H as [H|[-> _]]; [discriminate H|reflexivity].
  - split; split; intros H.
    + inversion H; reflexivity.
    + inversion H; reflexivity.
    + left. inversion H; reflexivity.
    + destruct H as [H|[_ H]]; [inversion H; reflexivity|discriminate H].
Qed.

(** X3. The two entry points agree on one request: when the metadata builder
    resolves, its result lacks the Open Graph part exactly when the page ends
    in the not-found outcome, and has it exactly when the page is rendered. *)
Theorem metadata_agrees_with_page (prisma : PrismaClient) (formatDate : Z -> string)
  (m : Metadata.t) :
  generateMetadata prisma = Resolved m ->
  (Metadata.openGraph m = None <->
     OralHealthTipsPage formatDate prisma = Rejected NEXT_NOT_FOUND) /\
  (Metadata.openGraph m <> None <->
     exists page, OralHealthTipsPage formatDate prisma = Resolved page).
Proof.
  unfold generateMetadata, OralHealthTipsPage, notFound.
  destruct (getOralHealthTipsData prisma) as [[d|]|e']; simpl; intros H;
    inversion H; subst; simpl; clear H; split; split.
  all: try discriminate.
  all: try (intros _; reflexivity).
  - intros _. eauto.
  - intros H. now elim H.
  - intros (page & H). discriminate.
Qed.

Lemma metadata_agrees_with_page_witness :
  generateMetadata (storeClient demoStoreWithoutCategory)
  = Resolved {| Metadata.title := FALLBACK_TITLE;
                Metadata.description := FALLBACK_DESCRIPTION;
                Metadata.openGraph := None |} /\
  OralHealthTipsPage demoFormatDate (storeClient demoStoreWithoutCategory)
  = Rejected NEXT_NOT_FOUND.
Proof.
  split; [reflexivity|].
  apply (@metadata_agrees_with_page (storeClient demoStoreWithoutCategory)
           demoFormatDate
           {| Metadata.title := FALLBACK_TITLE;
              Metadata.description := FALLBACK_DESCRIPTION;
              Metadata.openGraph := None |} eq_refl).
  reflexivity.
Defined.

(** ** The page on a store *)

Lemma store_category (st : Store) (data : PageData.t) :
  getOralHealthTipsData (storeClient st) = Resolved (Some data) ->
  In (PageData.category data) (categories st) /\
  CategoryRow.slug (PageData.category data) = CATEGORY_SLUG.
Proof.
  intros H. apply loader_resolved in H.
  destruct H as (c & arts & sibs & Hc & _ & _ & Hdata).
  destruct c as [c|]; [|discriminate]. simpl in Hdata.
  inversion Hdata; subst; simpl. simpl in Hc. inversion Hc as [Hfind].
  apply find_some in Hfind. destruct Hfind as [Hin Hslug].
  apply String.eqb_eq in Hslug. auto.
Qed.

Lemma listedRows_matches (st : Store) (a : ArticleRow.t) :
  articleMatches st (ArticleFindMany.where_ articlesQuery) a
  = (String.eqb (ArticleRow.status a) "PUBLISHED"
     && match categoryOf st a with
        | Some c => String.eqb (CategoryRow.slug c) "oral-health-tips"
        | None => false
        end).
Proof.
  simpl. destruct (categoryOf st a); [|reflexivity].
  now rewrite andb_true_r.
Qed.

Lemma articleRows_Permutation (st : Store) :
  Permutation (listedRows st) (articleRows st articlesQuery).
Proof.
  unfold articleRows, listedRows.
  rewrite (filter_ext _ _ (listedRows_matches st)).
  apply sortBy_Permutation.
Qed.

Lemma includeRelations_scalars (st : Store) (row : ArticleRow.t) (a : Article.t) :
  includeRelations st row = Resolved a ->
  Article.id a = ArticleRow.id row /\
  Article.slug a = ArticleRow.slug row /\
  Article.title a = ArticleRow.title row /\
  Article.excerpt a = ArticleRow.excerpt row /\
  Article.featuredImage a = ArticleRow.featuredImage row.
Proof.
  unfold includeRelations.
  destruct (authorOf st row) as [u|]; [|discriminate].
  destruct (categoryOf st row) as [c|]; [|discriminate].
  intros H; inversion H; subst; simpl. auto.
Qed.

Lemma Forall2_map_eq (A B C : Type) (R : A -> B -> Prop) (f : A -> C) (g : B -> C)
  (l : list A) (l' : list B) :
  (forall x y, R x y -> f x = g y) ->
  Forall2 R l l' -> map f l = map g l'.
Proof.
  intros Hfg. induction 1 as [|x y tl tl' Hxy _ IH]; simpl.
  - reflexivity.
  - now rewrite (Hfg _ _ Hxy), IH.
Qed.

Lemma store_article_ids (st : Store) (data : PageData.t) :
  getOralHealthTipsData (storeClient st) = Resolved (Some data) ->
  map Article.id (PageData.articles data)
  = map ArticleRow.id (articleRows st articlesQuery).
Proof.
  intros H. symmetry.
  apply (Forall2_map_eq (R := fun row a => includeRelations st row = Resolved a)).
  - intros row a Hinc. symmetry. now apply includeRelations_scalars in Hinc.
  - now apply store_articles.
Qed.

Lemma store_article_count (st : Store) (data : PageData.t) :
  getOralHealthTipsData (storeClient st) = Resolved (Some data) ->
  length (PageData.articles data) = length (listedRows st).
Proof.
  intros H.
  rewrite (Permutation_length (articleRows_Permutation st)).
  rewrite <- (length_map Article.id), (store_article_ids st H).
  apply length_map.
Qed.

(** Rows with pairwise distinct keys keep them distinct when some rows are
    left out, and two rows with the same key are the same row. *)
Lemma distinct_keys_filter (Row Key : Type) (key : Row -> Key) (keep : Row -> bool)
  (rows : list Row) :
  NoDup (map key rows) -> NoDup (map key (filter keep rows)).
Proof.
  induction rows as [|r rows IH]; simpl; intros Hrows; [constructor|].
  apply NoDup_cons_iff in Hrows. destruct Hrows as [Hfresh Hrest].
  destruct (keep r); simpl; [|auto].
  apply NoDup_cons; [|auto].
  intros Hin. apply Hfresh.
  apply in_map_iff in Hin. destruct Hin as (r' & Hkey & Hin).
  apply filter_In in Hin. apply in_map_iff. exists r'. tauto.
Qed.

Lemma distinct_keys_same_row (Row Key : Type) (key : Row -> Key) (rows : list Row)
  (r1 r2 : Row) :
  NoDup (map key rows) -> In r1 rows -> In r2 rows -> key r1 = key r2 -> r1 = r2.
Proof.
  induction rows as [|r rows IH]; simpl; intros Hrows H1 H2 Hkey; [contradiction|].
  apply NoDup_cons_iff in Hrows. destruct Hrows as [Hfresh Hrest].
  destruct H1 as [->|H1], H2 as [->|H2]; auto.
  - elim Hfresh. rewrite Hkey. now apply in_map.
  - elim Hfresh. rewrite <- Hkey. now apply in_map.
Qed.

(** X4. The list the loader returns is complete: its articles are, up to
    order, exactly the stored rows that are PUBLISHED and whose category has
    the slug of the page; none is dropped and none appears twice. *)
Theorem articles_complete (st : Store) (data : PageData.t) :
  getOralHealthTipsData (storeClient st) = Resolved (Some data) ->
  Permutation (map Article.id (PageData.articles data))
              (map ArticleRow.id (listedRows st)) /\
  length (PageData.articles data) = length (listedRows st).
Proof.
  intros H. split.
  - rewrite (store_article_ids st H).
    apply Permutation_sym, Permutation_map, articleRows_Permutation.
  - now apply store_article_count.
Qed.

Lemma articles_complete_witness :
  getOralHealthTipsData (storeClient demoStore) = Resolved (Some demoData) /\
  Permutation ["3"; "8"; "1"; "2"] ["1"; "2"; "3"; "8"] /\
  length (PageData.articles demoData) = 4.
Proof.
  split; [reflexivity|].
  exact (@articles_complete demoStore demoData eq_refl).
Defined.

(** X5. When the ids of the stored articles are pairwise distinct, so are the
    keys of the rendered cards. *)
Theorem card_keys_distinct (st : Store) (formatDate : Z -> string) (page : Page.t) :
  NoDup (map ArticleRow.id (articles st)) ->
  OralHealthTipsPage formatDate (storeClient st) = Resolved page ->
  NoDup (map ArticleCard.key (Page.cards page)).
Proof.
  intros Hids Hpage. apply page_resolved in Hpage.
  destruct Hpage as (data & Hdata & ->).
  unfold renderPage; cbn [Page.cards]. rewrite map_map.
  change (NoDup (map Article.id (PageData.articles data))).
  rewrite (store_article_ids st Hdata).
  eapply Permutation_NoDup.
  - apply Permutation_map, articleRows_Permutation.
  - unfold listedRows. now apply distinct_keys_filter.
Qed.

Lemma demoStore_article_ids : NoDup (map ArticleRow.id (articles demoStore)).
Proof.
  simpl. repeat constructor; simpl; intuition discriminate.
Qed.

Lemma card_keys_distinct_witness :
  NoDup (map ArticleRow.id (articles demoStore)) /\
  OralHealthTipsPage demoFormatDate (storeClient demoStore)
  = Resolved (renderPage demoFormatDate demoData) /\
  NoDup ["3"; "8"; "1"; "2"].
Proof.
  split; [exact demoStore_article_ids|]. split; [reflexivity|].
  exact (@card_keys_distinct demoStore demoFormatDate
           (renderPage demoFormatDate demoData) demoStore_article_ids eq_refl).
Defined.

Lemma store_article_row (st : Store) (data : PageData.t) (a : Article.t) :
  getOralHealthTipsData (storeClient st) = Resolved (Some data) ->
  In a (PageData.articles data) ->
  exists row c,
    In row (listedRows st) /\
    includeRelations st row = Resolved a /\
    categoryOf st row = Some c /\
    In c (categories st) /\
    CategoryRow.slug c = CATEGORY_SLUG /\
    ArticleRow.status row = "PUBLISHED" /\
    Article.category a = nameSlugOfCategory c.
Proof.
  intros Hdata Ha.
  destruct (Forall2_In_r (store_articles st Hdata) _ Ha) as (row & Hrow & Hinc).
  apply (Permutation_in _ (Permutation_sym (articleRows_Permutation st))) in Hrow.
  pose proof Hrow as Hlisted.
  unfold listedRows in Hrow. apply filter_In in Hrow. destruct Hrow as [_ Hmatch].
  rewrite <- listedRows_matches in Hmatch.
  apply articlesQuery_matches in Hmatch.
  destruct Hmatch as [Hstatus (c & Hc & Hslug)].
  destruct (includeRelations_fields st row Hinc) as (_ & _ & _ & c' & Hc' & Hcat).
  rewrite Hc in Hc'. inversion Hc'; subst c'.
  exists row, c. repeat split; auto.
  now apply categoryOf_In with (a := row).
Qed.

(** X6. When the slugs of the stored categories are pairwise distinct (the
    lookup by slug is a lookup by a unique key), the category badge of every
    card shows the name in the heading of the page. *)
Theorem badge_is_heading (st : Store) (formatDate : Z -> string) (page : Page.t)
  (card : ArticleCard.t) :
  NoDup (map CategoryRow.slug (categories st)) ->
  OralHealthTipsPage formatDate (storeClient st) = Resolved page ->
  In card (Page.cards page) ->
  ArticleCard.badge card = Page.heading page.
Proof.
  intros Hslugs Hpage Hcard. apply page_resolved in Hpage.
  destruct Hpage as (data & Hdata & ->).
  unfold renderPage in *; cbn [Page.cards Page.heading] in *.
  apply in_map_iff in Hcard. destruct Hcard as (a & <- & Ha).
  destruct (@store_article_row st data a Hdata Ha)
    as (row & c & _ & _ & _ & Hc & Hslug & _ & Hcat).
  destruct (store_category st Hdata) as [Hin Hslug'].
  simpl. rewrite Hcat. simpl. f_equal.
  apply (distinct_keys_same_row CategoryRow.slug (categories st)); auto.
  congruence.
Qed.

Lemma demoStore_category_slugs : NoDup (map CategoryRow.slug (categories demoStore)).
Proof.
  simpl. repeat constructor; simpl; intuition discriminate.
Qed.

Lemma badge_is_heading_witness :
  NoDup (map CategoryRow.slug (categories demoStore)) /\
  ArticleCard.badge (renderCard demoFormatDate (demoArticle "8" (Some 100%Z) 30))
  = "Oral Health Tips".
Proof.
  split; [exact demoStore_category_slugs|].
  apply (@badge_is_heading demoStore demoFormatDate
           (renderPage demoFormatDate demoData)
           (renderCard demoFormatDate (demoArticle "8" (Some 100%Z) 30))
           demoStore_category_slugs eq_refl).
  simpl. auto.
Defined.

(** X7. From the stored data to the listing: when the page is rendered, it
    has as many cards as there are stored PUBLISHED articles under the
    category with the slug of the page, it shows the empty-state block
    exactly when there is none, and the sidebar gets three related articles,
    or all of them when there are fewer. *)
Theorem listing_of_store (st : Store) (formatDate : Z -> string) (page : Page.t) :
  OralHealthTipsPage formatDate (storeClient st) = Resolved page ->
  length (Page.cards page) = length (listedRows st) /\
  (Page.emptyState page <> None <-> listedRows st = []) /\
  length (SidebarProps.relatedArticles (Page.sidebar page))
  = Nat.min 3 (length (listedRows st)).
Proof.
  intros Hpage. apply page_resolved in Hpage.
  destruct Hpage as (data & Hdata & ->).
  pose proof (store_article_count st Hdata) as Hlen.
  unfold renderPage;
    cbn [Page.cards Page.emptyState Page.sidebar SidebarProps.relatedArticles].
  rewrite length_map, length_firstn, Hlen. repeat split.
  - intros Hempty. destruct (listedRows st); [reflexivity|].
    simpl in Hempty. now elim Hempty.
  - intros Hnil. rewrite Hnil. simpl. discriminate.
Qed.

Lemma listing_of_store_witness :
  OralHealthTipsPage demoFormatDate (storeClient demoStore)
  = Resolved (renderPage demoFormatDate demoData) /\
  length (Page.cards (renderPage demoFormatDate demoData)) = 4 /\
  length (SidebarProps.relatedArticles
            (Page.sidebar (renderPage demoFormatDate demoData))) = 3.
Proof.
  split; [reflexivity|].
  destruct (@listing_of_store demoStore demoFormatDate
              (renderPage demoFormatDate demoData) eq_refl)
    as (Hcards & _ & Hrelated).
  split; [exact Hcards|exact Hrelated].
Defined.

(** ** The sidebar *)

Lemma siblingRow_kept (st : Store) (c : CategoryRow.t) :
  CategoryRow.slug c <> CATEGORY_SLUG ->
  publishedIn st c <> [] ->
  categoryMatches st (CategoryFindMany.where_ siblingCategoriesQuery) c = true.
Proof.
  intros Hslug Hsome. simpl.
  rewrite andb_true_iff, negb_true_iff, String.eqb_neq, existsb_exists.
  split; [exact Hslug|].
  destruct (publishedIn st c) as [|a tl] eqn:E; [congruence|].
  assert (Ha : In a (publishedIn st c)) by (rewrite E; now left).
  unfold publishedIn in Ha. apply filter_In in Ha. destruct Ha as [Hin Hp].
  exists a. split; [exact Hin|].
  unfold inCategory. now rewrite andb_true_r.
Qed.

Lemma categoryRows_Permutation (st : Store) :
  Permutation
    (filter (categoryMatches st (CategoryFindMany.where_ siblingCategoriesQuery))
            (categories st))
    (categoryRows st siblingCategoriesQuery).
Proof. apply sortBy_Permutation. Qed.

Lemma store_sibling_slugs (st : Store) (data : PageData.t) :
  getOralHealthTipsData (storeClient st) = Resolved (Some data) ->
  map SiblingCategory.slug (PageData.siblingCategories data)
  = map CategoryRow.slug (categoryRows st siblingCategoriesQuery).
Proof.
  intros H. rewrite (store_siblings st H), map_map. reflexivity.
Qed.

Lemma store_sibling_not_active (st : Store) (data : PageData.t) :
  getOralHealthTipsData (storeClient st) = Resolved (Some data) ->
  ~ In CATEGORY_SLUG (map SiblingCategory.slug (PageData.siblingCategories data)).
Proof.
  intros H Hin. rewrite (store_sibling_slugs st H) in Hin.
  apply in_map_iff in Hin. destruct Hin as (c & Hslug & Hc).
  unfold categoryRows in Hc. apply sortBy_In, filter_In in Hc.
  destruct Hc as [_ Hmatch].
  apply siblingCategoriesQuery_matches in Hmatch. tauto.
Qed.

(** X9. The sibling summaries are complete: every stored category with a slug
    other than that of the page and with at least one PUBLISHED article has
    its summary in the list, with its name, its slug and the number of its
    PUBLISHED articles. *)
Theorem siblings_complete (st : Store) (data : PageData.t) (c : CategoryRow.t) :
  getOralHealthTipsData (storeClient st) = Resolved (Some data) ->
  In c (categories st) ->
  CategoryRow.slug c <> "oral-health-tips" ->
  publishedIn st c <> [] ->
  In {| SiblingCategory.name := CategoryRow.name c;
        SiblingCategory.slug := CategoryRow.slug c;
        SiblingCategory.count := length (publishedIn st c) |}
     (PageData.siblingCategories data).
Proof.
  intros Hdata Hc Hslug Hsome.
  rewrite (store_siblings st Hdata). apply in_map_iff. exists c. split.
  - unfold summarize, selectCategory. simpl.
    now rewrite length_map, selectedArticles_published.
  - unfold categoryRows. apply sortBy_In, filter_In. split; [exact Hc|].
    now apply siblingRow_kept.
Qed.

Lemma siblings_complete_witness :
  getOralHealthTipsData (storeClient demoStore) = Resolved (Some demoData) /\
  In (demoSibling "Braces" "braces" 2) (PageData.siblingCategories demoData).
Proof.
  split; [reflexivity|].
  apply (@siblings_complete demoStore demoData (demoCategory "c3" "Braces" "braces")).
  - reflexivity.
  - simpl. auto.
  - discriminate.
  - discriminate.
Defined.

(** X10. When the slugs of the stored categories are pairwise distinct, no
    two sibling summaries have the same slug. *)
Theorem sibling_slugs_distinct (st : Store) (data : PageData.t) :
  NoDup (map CategoryRow.slug (categories st)) ->
  getOralHealthTipsData (storeClient st) = Resolved (Some data) ->
  NoDup (map SiblingCategory.slug (PageData.siblingCategories data)).
Proof.
  intros Hslugs Hdata. rewrite (store_sibling_slugs st Hdata).
  eapply Permutation_NoDup.
  - apply Permutation_map, categoryRows_Permutation.
  - now apply distinct_keys_filter.
Qed.

Lemma sibling_slugs_distinct_witness :
  NoDup (map CategoryRow.slug (categories demoStore)) /\
  getOralHealthTipsData (storeClient demoStore) = Resolved (Some demoData) /\
  NoDup ["braces"; "teething"].
Proof.
  split; [exact demoStore_category_slugs|]. split; [reflexivity|].
  exact (@sibling_slugs_distinct demoStore demoData demoStore_category_slugs eq_refl).
Defined.

Lemma related_among_articles (A : Type) (l : list A) (x : A) :
  In x (firstn 3 l) -> In x l.
Proof.
  intros Hx. rewrite <- (firstn_skipn 3 l). apply in_or_app. now left.
Qed.

(** X11. What the sidebar of a rendered page receives: the active slug is the
    slug of the loaded category and is not the slug of any sibling category
    passed along, and every related article is a PUBLISHED article of the
    active category. *)
Theorem sidebar_props_of_store (st : Store) (formatDate : Z -> string) (page : Page.t) :
  OralHealthTipsPage formatDate (storeClient st) = Resolved page ->
  let props := Page.sidebar page in
  (exists c, In c (categories st) /\
             CategoryRow.slug c = SidebarProps.activeCategorySlug props /\
             CategoryRow.name c = SidebarProps.categoryName props) /\
  ~ In (SidebarProps.activeCategorySlug props)
       (map SiblingCategory.slug (SidebarProps.siblingCategories props)) /\
  (forall a, In a (SidebarProps.relatedArticles props) ->
     Article.status a = "PUBLISHED" /\
     NameSlug.slug (Article.category a) = SidebarProps.activeCategorySlug props).
Proof.
  intros Hpage. apply page_resolved in Hpage.
  destruct Hpage as (data & Hdata & ->).
  cbv zeta. unfold renderPage.
  cbn [Page.sidebar SidebarProps.activeCategorySlug SidebarProps.categoryName
       SidebarProps.siblingCategories SidebarProps.relatedArticles].
  split; [|split].
  - exists (PageData.category data).
    destruct (store_category st Hdata) as [Hin Hslug]. auto.
  - exact (store_sibling_not_active st Hdata).
  - intros a Ha. apply related_among_articles in Ha.
    destruct (@store_article_row st data a Hdata Ha)
      as (row & c & _ & Hinc & _ & _ & Hslug & Hstatus & Hcat).
    destruct (includeRelations_fields st row Hinc) as (-> & _).
    rewrite Hcat. auto.
Qed.

Lemma sidebar_props_of_store_witness :
  OralHealthTipsPage demoFormatDate (storeClient demoStore)
  = Resolved (renderPage demoFormatDate demoData) /\
  ~ In "oral-health-tips" ["braces"; "teething"].
Proof.
  split; [reflexivity|].
  exact (proj1 (proj2 (@sidebar_props_of_store demoStore demoFormatDate
                         (renderPage demoFormatDate demoData) eq_refl))).
Defined.

(** ** The order of the whole list *)

Lemma publishedAt_ge_trans (high : bool) (x y z : option Z) :
  publishedAt_ge high x y -> publishedAt_ge high y z -> publishedAt_ge high x z.
Proof.
  destruct x, y, z; simpl; intros H1 H2; try lia; try congruence; auto.
Qed.

Lemma publishedAt_ge_antisym (high : bool) (x y : option Z) :
  publishedAt_ge high x y -> publishedAt_ge high y x -> x = y.
Proof.
  destruct x, y; simpl; intros H1 H2; try congruence.
  f_equal. lia.
Qed.

Lemma listedBefore_trans (high : bool) (a b c : Article.t) :
  listedBefore high a b -> listedBefore high b c -> listedBefore high a c.
Proof.
  intros [Hab Hab'] [Hbc Hbc']. split.
  - eapply publishedAt_ge_trans; eauto.
  - intros Hac.
    assert (Heq : Article.publishedAt a = Article.publishedAt b).
    { apply (publishedAt_ge_antisym high); [exact Hab|].
      rewrite Hac. exact Hbc. }
    specialize (Hab' Heq). rewrite Heq in Hac. specialize (Hbc' Hac). lia.
Qed.

Lemma adjacent_to_distant (A : Type) (P : A -> A -> Prop) (l : list A) :
  (forall a b c, P a b -> P b c -> P a c) ->
  (forall i a b, nth_error l i = Some a -> nth_error l (S i) = Some b -> P a b) ->
  forall j i a b, i < j ->
    nth_error l i = Some a -> nth_error l j = Some b -> P a b.
Proof.
  intros Htrans Hadj. induction j as [|j IH]; intros i a b Hij Ha Hb.
  - lia.
  - destruct (Nat.eq_dec i j) as [->|Hne].
    + eapply Hadj; eauto.
    + destruct (nth_error l j) as [c|] eqn:Hc.
      * apply Htrans with c.
        -- apply (IH i); auto. lia.
        -- eapply Hadj; eauto.
      * apply nth_error_None in Hc.
        assert (Hlt : S j < length l) by (apply nth_error_Some; congruence).
        lia.
Qed.

Lemma store_articles_adjacent (st : Store) (data : PageData.t) (i : nat)
  (a b : Article.t) :
  getOralHealthTipsData (storeClient st) = Resolved (Some data) ->
  nth_error (PageData.articles data) i = Some a ->
  nth_error (PageData.articles data) (S i) = Some b ->
  listedBefore (nullsHigh st) a b.
Proof.
  intros Hdata Ha Hb.
  pose proof (store_articles st Hdata) as Hrows.
  destruct (Forall2_nth_error_r Hrows _ Ha) as (ra & Hra & Hia).
  destruct (Forall2_nth_error_r Hrows _ Hb) as (rb & Hrb & Hib).
  apply includeRelations_fields in Hia. destruct Hia as (_ & Hpa & Hca & _).
  apply includeRelations_fields in Hib. destruct Hib as (_ & Hpb & Hcb & _).
  unfold listedBefore. rewrite Hpa, Hca, Hpb, Hcb.
  exact (articleRows_adjacent st i Hra Hrb).
Qed.

(** X12. The order holds throughout the list, not only between neighbours:
    of two articles of the list the loader returns, the earlier one has a
    publishedAt that is at least that of the later one in the order of the
    database (which places NULL above or below all dates) and, when the two
    publishedAt are equal or both null, a createdAt that is at least that of
    the later one. *)
Theorem articles_ordered_throughout (st : Store) (data : PageData.t) (i j : nat)
  (a b : Article.t) :
  getOralHealthTipsData (storeClient st) = Resolved (Some data) ->
  i < j ->
  nth_error (PageData.articles data) i = Some a ->
  nth_error (PageData.articles data) j = Some b ->
  listedBefore (nullsHigh st) a b.
Proof.
  intros Hdata Hij Ha Hb.
  apply (@adjacent_to_distant _ (listedBefore (nullsHigh st)) (PageData.articles data))
    with (i := i) (j := j); auto.
  - intros x y z. apply listedBefore_trans.
  - intros k x y Hx Hy. exact (store_articles_adjacent st k Hdata Hx Hy).
Qed.

Lemma articles_ordered_throughout_witness :
  getOralHealthTipsData (storeClient demoStore) = Resolved (Some demoData) /\
  listedBefore false (demoArticle "3" (Some 200%Z) 5) (demoArticle "2" None 20).
Proof.
  split; [reflexivity|].
  apply (@articles_ordered_throughout demoStore demoData 0 3
           (demoArticle "3" (Some 200%Z) 5) (demoArticle "2" None 20)).
  - reflexivity.
  - lia.
  - reflexivity.
  - reflexivity.
Defined.

Example demo_undated_first :
  exists data,
    getOralHealthTipsData (storeClient demoStoreNullsHigh) = Resolved (Some data) /\
    map Article.id (PageData.articles data) = ["2"; "3"; "8"; "1"] /\
    map Article.publishedAt (PageData.articles data)
    = [None; Some 200%Z; Some 100%Z; Some 100%Z].
Proof. eexists. split; [reflexivity|]. split; reflexivity. Qed.

(** ** Links *)

Lemma append_slash_injective (s t : string) :
  s ++ "/" = t ++ "/" -> s = t.
Proof.
  revert t. induction s as [|c s IH]; intros [|d t] H; simpl in H.
  - reflexivity.
  - inversion H as [[Hc Ht]]. destruct t; discriminate.
  - inversion H as [[Hc Hs]]. destruct s; discriminate.
  - inversion H as [[Hc Hs]]. f_equal. now apply IH.
Qed.

(** X13. The title link tells articles apart: two cards have the same title
    link exactly when their articles have the same slug.  The "Read tip"
    link of a card leads where its title link leads only for an article whose
    slug is literally "{article.slug}". *)
Theorem article_links (formatDate : Z -> string) (a b : Article.t) :
  (Link.href (ArticleCard.titleLink (renderCard formatDate a))
   = Link.href (ArticleCard.titleLink (renderCard formatDate b))
   <-> Article.slug a = Article.slug b) /\
  (Link.href (ArticleCard.readLink (renderCard formatDate a))
   = Link.href (ArticleCard.titleLink (renderCard formatDate a))
   <-> Article.slug a = "{article.slug}").
Proof.
  simpl. split; split.
  - intros H. inversion H as [H']. now apply append_slash_injective.
  - intros ->. reflexivity.
  - unfold READ_TIP_HREF. intros H. inversion H as [H'].
    symmetry. apply append_slash_injective. exact H'.
  - intros ->. reflexivity.
Qed.

(** X14. The link builder handed to the sidebar maps a slug to "/slug/" and
    gives two slugs the same link only when they are the same slug; the link
    of the active category is "/oral-health-tips/". *)
Theorem category_links (formatDate : Z -> string) (data : PageData.t) (s t : string) :
  let props := Page.sidebar (renderPage formatDate data) in
  SidebarProps.categoryLinkBuilder props s = "/" ++ s ++ "/" /\
  (SidebarProps.categoryLinkBuilder props s = SidebarProps.categoryLinkBuilder props t
   <-> s = t) /\
  SidebarProps.categoryLinkBuilder props (SidebarProps.activeCategorySlug props)
  = "/oral-health-tips/".
Proof.
  simpl. split; [reflexivity|]. split; [|reflexivity]. split.
  - intros H. inversion H as [H']. now apply append_slash_injective.
  - intros ->. reflexivity.
Qed.

(** ** The optional parts of a card *)

Lemma truthy_Some (x : option string) (s : string) :
  truthy x = Some s <-> x = Some s /\ s <> "".
Proof.
  unfold truthy. destruct x as [v|].
  - destruct (String.eqb_spec v "") as [->|Hv]; split.
    + intros H; discriminate H.
    + intros [H Hs]. inversion H; subst. now elim Hs.
    + intros H; inversion H; subst. auto.
    + intros [H _]. exact H.
  - split; [intros H; discriminate H|intros [H _]; discriminate H].
Qed.

Lemma truthy_None (x : option string) :
  truthy x = None <-> x = None \/ x = Some "".
Proof.
  unfold truthy. destruct x as [v|].
  - destruct (String.eqb_spec v "") as [->|Hv]; split.
    + intros _. now right.
    + reflexivity.
    + intros H; discriminate H.
    + intros [H|H]; [discriminate H|]. inversion H. contradiction.
  - split; auto.
Qed.

(** X15. The optional parts of a card.  The image is shown exactly when the
    article has a non-empty featuredImage, with the title as its alternative
    text, and the placeholder panel otherwise, also for an empty string; the
    excerpt paragraph is shown exactly when the excerpt is present and not
    empty; the date is shown exactly when publishedAt is set, formatted by
    formatDate. *)
Theorem card_optional_parts (formatDate : Z -> string) (a : Article.t) :
  let card := renderCard formatDate a in
  (forall src alt,
     ArticleCard.image card = Image src alt <->
     Article.featuredImage a = Some src /\ src <> "" /\ alt = Article.title a) /\
  (ArticleCard.image card = Placeholder "Oral Health Tips" <->
     Article.featuredImage a = None \/ Article.featuredImage a = Some "") /\
  (forall e,
     ArticleCard.excerpt card = Some e <->
     Article.excerpt a = Some e /\ e <> "") /\
  (ArticleCard.excerpt card = None <->
     Article.excerpt a = None \/ Article.excerpt a = Some "") /\
  (forall d,
     ArticleCard.publishedDate card = Some d <->
     exists ms, Article.publishedAt a = Some ms /\ d = formatDate ms).
Proof.
  cbv zeta. unfold renderCard.
  cbn [ArticleCard.image ArticleCard.excerpt ArticleCard.publishedDate].
  split; [|split; [|split; [|split]]].
  - intros src alt. rewrite <- and_assoc, <- truthy_Some.
    destruct (truthy (Article.featuredImage a)) as [v|]; split.
    + intros H; inversion H; auto.
    + intros [H ->]. inversion H; reflexivity.
    + discriminate.
    + intros [H _]; discriminate.
  - rewrite <- truthy_None.
    destruct (truthy (Article.featuredImage a)); split; auto; discriminate.
  - intros e. apply truthy_Some.
  - apply truthy_None.
  - intros d. destruct (Article.publishedAt a) as [ms|]; simpl; split.
    + intros H; inversion H; eauto.
    + intros (ms' & H & ->). inversion H; reflexivity.
    + discriminate.
    + intros (ms' & H & _). discriminate.
Qed.

Example demo_card_parts :
  ArticleCard.image (renderCard demoFormatDate demoIllustrated)
  = Image "/img/brushing.png" "Brushing" /\
  ArticleCard.excerpt (renderCard demoFormatDate demoIllustrated)
  = Some "Two minutes, twice a day." /\
  ArticleCard.publishedDate (renderCard demoFormatDate demoIllustrated)
  = Some "January 1, 2024" /\
  ArticleCard.image (renderCard demoFormatDate demoBare)
  = Placeholder "Oral Health Tips" /\
  ArticleCard.excerpt (renderCard demoFormatDate demoBare) = None /\
  ArticleCard.publishedDate (renderCard demoFormatDate demoBare) = None /\
  Link.href (ArticleCard.readLink (renderCard demoFormatDate demoBare))
  = Link.href (ArticleCard.titleLink (renderCard demoFormatDate demoBare)).
Proof. repeat split. Qed.

Example demo_sibling_query_fails :
  getOralHealthTipsData demoHalfFailingClient = Rejected (PrismaClientError "timeout") /\
  generateMetadata demoHalfFailingClient = Rejected (PrismaClientError "timeout") /\
  OralHealthTipsPage demoFormatDate demoHalfFailingClient
  = Rejected (PrismaClientError "timeout").
Proof. repeat split. Qed.

(** ** Metadata and the stored category *)

Lemma store_loader_category (st : Store) (r : option PageData.t) :
  getOralHealthTipsData (storeClient st) = Resolved r ->
  find (fun c => String.eqb (CategoryRow.slug c) CATEGORY_SLUG) (categories st)
  = option_map PageData.category r.
Proof.
  intros H. apply loader_resolved in H.
  destruct H as (c & arts & sibs & Hc & _ & _ & ->).
  simpl in Hc. inversion Hc as [Hfind]. clear Hc. rewrite Hfind.
  now destruct c.
Qed.

(** X16. On a store, the metadata describes the stored category with the
    slug of the page: when the builder resolves, its result lacks the Open
    Graph part exactly when no stored category has that slug, and otherwise
    its title and description are derived from the first stored category
    with that slug. *)
Theorem metadata_of_store (st : Store) (m : Metadata.t) :
  generateMetadata (storeClient st) = Resolved m ->
  (Metadata.openGraph m = None <->
     forall c, In c (categories st) -> CategoryRow.slug c <> "oral-health-tips") /\
  (forall c,
     find (fun c => String.eqb (CategoryRow.slug c) "oral-health-tips") (categories st)
     = Some c ->
     Metadata.title m
     = CategoryRow.seoTitle c ?? (CategoryRow.name c ++ " | Pediatric Dentist Directory") /\
     Metadata.description m
     = CategoryRow.seoDescription c ?? CategoryRow.description c ?? DEFAULT_DESCRIPTION).
Proof.
  unfold generateMetadata.
  destruct (getOralHealthTipsData (storeClient st)) as [r|e] eqn:Hr; [|discriminate].
  pose proof (store_loader_category st Hr) as Hfind.
  change CATEGORY_SLUG with "oral-health-tips" in Hfind.
  destruct r as [d|]; simpl in *; intros H; inversion H; subst; clear H; simpl.
  - split.
    + split; [discriminate|]. intros Hnone.
      apply find_some in Hfind. destruct Hfind as [Hin Hslug].
      apply String.eqb_eq in Hslug. now elim (Hnone _ Hin).
    + intros c Hc. rewrite Hfind in Hc. inversion Hc; subst. auto.
  - split.
    + split; [|reflexivity]. intros _ c Hin Hslug.
      pose proof (find_none _ _ Hfind c Hin) as Hf. simpl in Hf.
      rewrite Hslug in Hf. discriminate.
    + intros c Hc. rewrite Hfind in Hc. discriminate.
Qed.

Lemma metadata_of_store_witness :
  generateMetadata (storeClient demoBlankStore)
  = Resolved {| Metadata.title := ""; Metadata.description := "";
                Metadata.openGraph :=
                  Some {| OpenGraph.title := ""; OpenGraph.description := "" |} |} /\
  "" = CategoryRow.seoTitle demoBlankCategory
         ?? (CategoryRow.name demoBlankCategory ++ " | Pediatric Dentist Directory").
Proof.
  split; [reflexivity|].
  exact (proj1 (proj2 (@metadata_of_store demoBlankStore
                         {| Metadata.title := ""; Metadata.description := "";
                            Metadata.openGraph :=
                              Some {| OpenGraph.title := "";
                                      OpenGraph.description := "" |} |}
                         eq_refl)
                      demoBlankCategory eq_refl)).
Defined.

(** X17. The metadata depends on the category alone: two requests that load
    the same category get the same metadata, whatever articles and sibling
    categories come with it. *)
Theorem metadata_ignores_listing (prisma1 prisma2 : PrismaClient)
  (data1 data2 : PageData.t) :
  getOralHealthTipsData prisma1 = Resolved (Some data1) ->
  getOralHealthTipsData prisma2 = Resolved (Some data2) ->
  PageData.category data1 = PageData.category data2 ->
  generateMetadata prisma1 = generateMetadata prisma2.
Proof.
  intros H1 H2 Hc. unfold generateMetadata. rewrite H1, H2. simpl.
  now rewrite Hc.
Qed.

Lemma metadata_ignores_listing_witness :
  getOralHealthTipsData (storeClient demoStore) = Resolved (Some demoData) /\
  getOralHealthTipsData demoListlessClient
  = Resolved (Some {| PageData.category := demoTips;
                      PageData.articles := [];
                      PageData.siblingCategories := [] |}) /\
  generateMetadata (storeClient demoStore) = generateMetadata demoListlessClient.
Proof.
  split; [reflexivity|]. split; [reflexivity|].
  apply (@metadata_ignores_listing (storeClient demoStore) demoListlessClient
           demoData
           {| PageData.category := demoTips;
              PageData.articles := [];
              PageData.siblingCategories := [] |});
    reflexivity.
Defined.
